(** * openlava-web: the cluster resource model, the projection encoder and
      the privilege-separated views, embedded from
      [openlavaweb/cluster/__init__.py] and [openlavaweb/views.py]. *)

From Stdlib Require Import QArith.
From stdpp Require Import gmap strings list fin_maps.

Set Warnings "-register-all".
Set Default Proof Using "Type".

Open Scope string_scope.
Open Scope list_scope.
Open Scope Z_scope.

(** ** Python values *)

(** Instances of classes live in an object store and are referred to by
    their identity, so that two attributes may hold the same instance and
    instances may refer to each other. *)
Abbreviation oid := nat (only parsing).

(** [datetime.timedelta]: days, seconds and microseconds. *)
Record timedelta := Timedelta
  { td_days : Z; td_seconds : Z; td_microseconds : Z }.

Inductive value :=
| VNone
| VBool (b : bool)
| VInt (n : Z)
| VFloat (q : Q)
| VStr (s : string)
| VList (l : list value)
| VDict (d : gmap string value)
| VTimedelta (td : timedelta)
| VRef (o : oid)                      (* an instance in the object store *)
| VMethod (o : oid) (name : string).  (* a bound method of an instance *)

(** A JSON document.  [json.dumps] is always called with [sort_keys=True], so
    an object is a finite map: two documents with the same members are the
    same document. *)
Inductive json :=
| JNull
| JBool (b : bool)
| JInt (n : Z)
| JFloat (q : Q)
| JStr (s : string)
| JArr (l : list json)
| JObj (m : gmap string json).

(** ** Exceptions *)

(** The classes of [openlavaweb.cluster] deriving from [ClusterException]. *)
Inductive cluster_class :=
| ClusterException_
| NoSuchHostError
| NoSuchJobError
| NoSuchQueueError
| NoSuchUserError
| ResourceDoesntExistError
| ClusterInterfaceError
| PermissionDeniedError
| JobSubmitError.

(** The other exception classes that the modelled code can meet. [Empty] is
    [Queue.Empty], raised by a non-blocking read of an empty channel. *)
Inductive builtin_class :=
| KeyError
| OSError
| ValueError
| TypeError
| AttributeError
| IndexError
| NotImplementedError
| RuntimeError
| NoReverseMatch
| Empty.

(** An instance of a [ClusterException] class: its class and its instance
    dictionary.  [Exception.__init__] stores the message under [message],
    [__init__] stores the list of extra names under [_extras], and [setattr]
    stores each extra under its own name. *)
Record ClusterException := MkClusterException
  { exc_class : cluster_class; attrs : gmap string value }.

Inductive exn :=
| Builtin (c : builtin_class) (msg : string)
| Cluster (e : ClusterException).

(** A call either returns or raises. *)
Inductive result (A : Type) :=
| Val (a : A)
| Exc (e : exn).
Arguments Val {A} a.
Arguments Exc {A} e.

#[global] Instance result_ret : MRet result := λ A, Val.
#[global] Instance result_bind : MBind result := λ A B f m,
  match m with Val a => f a | Exc e => Exc e end.
#[global] Instance result_fmap : FMap result := λ A B f m,
  match m with Val a => Val (f a) | Exc e => Exc e end.

Definition is_Val {A} (r : result A) : Prop := ∃ a, r = Val a.

(** ** The JSON encoder of the standard library *)

Definition total_seconds (td : timedelta) : Q :=
  Qmake ((td_days td * 86400 + td_seconds td) * 1000000 + td_microseconds td)
        1000000.

Section json_encoder.
(** The [default] hook of the encoder class in use. *)
Variable default : value → result value.

(** [json.dumps]: scalars, sequences and dictionaries are written as they
    are, anything else goes through [default] and the result is encoded in
    turn.  [markers] holds the instances being expanded (the encoder's
    circular-reference check) and [depth] is the interpreter's recursion
    budget: running out of it raises [RuntimeError]. *)
Fixpoint encode (depth : nat) (markers : list oid) (o : value) : result json :=
  match depth with
  | O => Exc (Builtin RuntimeError "maximum recursion depth exceeded")
  | S depth =>
      match o with
      | VNone => Val JNull
      | VBool b => Val (JBool b)
      | VInt n => Val (JInt n)
      | VFloat q => Val (JFloat q)
      | VStr s => Val (JStr s)
      | VList l => JArr <$> mapM (encode depth markers) l
      | VDict d =>
          (λ kvs, JObj (list_to_map kvs)) <$>
            mapM (λ kv, pair kv.1 <$> encode depth markers kv.2) (map_to_list d)
      | VRef r =>
          if decide (r ∈ markers)
          then Exc (Builtin ValueError "Circular reference detected")
          else o' ← default o; encode depth (r :: markers) o'
      | VTimedelta _ | VMethod _ _ =>
          o' ← default o; encode depth markers o'
      end
  end.
End json_encoder.

(** [json.JSONEncoder.default]: nothing else is serializable. *)
Definition JSONEncoder_default (o : value) : result value :=
  Exc (Builtin TypeError "is not JSON serializable").

(** ** [openlavaweb/cluster/__init__.py] *)

Module cluster.

(** *** ClusterException *)

Definition class_name (c : cluster_class) : string :=
  match c with
  | ClusterException_ => "ClusterException"
  | NoSuchHostError => "NoSuchHostError"
  | NoSuchJobError => "NoSuchJobError"
  | NoSuchQueueError => "NoSuchQueueError"
  | NoSuchUserError => "NoSuchUserError"
  | ResourceDoesntExistError => "ResourceDoesntExistError"
  | ClusterInterfaceError => "ClusterInterfaceError"
  | PermissionDeniedError => "PermissionDeniedError"
  | JobSubmitError => "JobSubmitError"
  end.

(** The class attribute [http_response]. *)
Definition http_response (c : cluster_class) : option string :=
  match c with
  | NoSuchHostError | NoSuchJobError | NoSuchQueueError
  | NoSuchUserError | ResourceDoesntExistError => Some "HttpResponseNotFound"
  | PermissionDeniedError => Some "HttpResponseForbidden"
  | ClusterException_ | ClusterInterfaceError | JobSubmitError => None
  end.

Definition getattr (self : ClusterException) (name : string) : result value :=
  match attrs self !! name with
  | Some v => Val v
  | None => Exc (Builtin AttributeError name)
  end.

Definition setattr (self : ClusterException) (name : string) (v : value)
  : ClusterException :=
  MkClusterException (exc_class self) (<[name := v]> (attrs self)).

(** [self._extras.append(k)] *)
Definition extras_append (self : ClusterException) (k : string)
  : result ClusterException :=
  match attrs self !! "_extras" with
  | Some (VList l) => Val (setattr self "_extras" (VList (l ++ [VStr k])))
  | Some _ => Exc (Builtin AttributeError "append")
  | None => Exc (Builtin AttributeError "_extras")
  end.

(** One round of the loop of [__init__]. *)
Definition init_step (acc : result ClusterException) (kv : string * value)
  : result ClusterException :=
  self ← acc;
  self ← extras_append self kv.1;
  Val (setattr self kv.1 kv.2).

(** [ClusterException.__init__(self, message, **kwargs)], on a fresh instance
    of class [c].  The keyword dictionary cannot bind a name of the
    signature: such a call raises [TypeError] before the body runs. *)
Definition __init__ (c : cluster_class) (message : string)
    (kwargs : gmap string value) : result ClusterException :=
  if decide ("message" ∈ dom kwargs ∨ "self" ∈ dom kwargs)
  then Exc (Builtin TypeError "got multiple values for keyword argument")
  else
    let self := MkClusterException c {[ "message" := VStr message ]} in
    let self := setattr self "_extras" (VList []) in
    foldl init_step (Val self) (map_to_list kwargs).

(** One round of the loop of [to_json]: [fields[f] = getattr(self, f)]. *)
Definition to_json_step (self : ClusterException)
    (acc : result (gmap string value)) (f : value)
  : result (gmap string value) :=
  fields ← acc;
  match f with
  | VStr f => v ← getattr self f; Val (<[f := v]> fields)
  | _ => Exc (Builtin TypeError "getattr(): attribute name must be string")
  end.

(** The dictionary that [to_json] hands to [json.dumps]. *)
Definition to_json_fields (self : ClusterException)
  : result (gmap string value) :=
  message ← getattr self "message";
  extras ← getattr self "_extras";
  match extras with
  | VList extras =>
      foldl (to_json_step self)
        (Val (<["message" := message]>
                (<["type" := VStr "Exception"]>
                   {[ "status" := VStr "Fail" ]})))
        extras
  | _ => Exc (Builtin TypeError "object is not iterable")
  end.

Definition to_json (depth : nat) (self : ClusterException) : result json :=
  fields ← to_json_fields self;
  encode JSONEncoder_default depth [] (VDict fields).

Definition json_response (self : ClusterException) : result value :=
  message ← getattr self "message";
  Val (VDict (<["message" := message]>
                {[ "exception_class" := VStr (class_name (exc_class self)) ]})).

(** *** ClusterBase *)

Section ClusterBase.
(** The host objects of the scheduler backend and their [is_down]
    property. *)
Context {Host : Type} (is_down : Host → bool).

(** [hosts()] is left to the backend: it returns the hosts or raises. *)
Record ClusterBase := { hosts : result (list Host) }.

Definition problem_hosts (self : ClusterBase) : result (list Host) :=
  hs ← hosts self;
  Val (foldl (λ host_list host,
                if is_down host then host_list ++ [host] else host_list)
             [] hs).
End ClusterBase.

(** *** The declared projections *)

Definition ClusterBase_json_attributes : list string :=
  [ "cluster_type"; "admins"; "name"; "main"; "hosts"; "problem_hosts";
    "queues"; "jobs"; "resources" ].

Definition JobBase_json_attributes : list string :=
  [ "queue"; "submission_host"; "execution_hosts"; "requested_hosts";
    "cluster_type"; "admins"; "job_id"; "array_index"; "begin_time";
    "command"; "consumed_resources"; "cpu_time"; "dependency_condition";
    "email_user"; "end_time"; "error_file_name"; "input_file_name";
    "max_requested_slots"; "name"; "options"; "output_file_name";
    "pending_reasons"; "predicted_start_time"; "priority"; "process_id";
    "processes"; "project_names"; "requested_resources"; "requested_slots";
    "reservation_time"; "runtime_limits"; "start_time"; "status";
    "submit_time"; "suspension_reasons"; "termination_time"; "user_name";
    "user_priority"; "is_pending"; "is_running"; "is_suspended"; "is_failed";
    "was_killed"; "is_completed" ].

Definition HostBase_json_attributes : list string :=
  [ "admins"; "name"; "host_name"; "description"; "has_checkpoint_support";
    "host_model"; "host_type"; "resources"; "is_busy"; "is_closed"; "is_down";
    "max_jobs"; "max_processors"; "max_ram"; "max_slots"; "max_swap";
    "max_tmp"; "num_reserved_slots"; "num_running_jobs"; "num_running_slots";
    "num_suspended_jobs"; "num_suspended_slots"; "statuses"; "total_jobs";
    "total_slots"; "jobs"; "load_information"; "cluster_type" ].

Definition UserBase_json_attributes : list string :=
  [ "cluster_type"; "name"; "max_jobs_per_processor"; "max_slots";
    "total_slots"; "num_running_slots"; "num_pending_slots";
    "num_suspended_slots"; "num_reserved_slots"; "max_jobs"; "total_jobs";
    "num_running_jobs"; "num_pending_jobs"; "num_suspended_jobs"; "jobs" ].

Definition QueueBase_json_attributes : list string :=
  [ "name"; "description"; "priority"; "max_jobs_per_user";
    "max_slots_per_user"; "max_jobs_per_processor"; "max_slots_per_processor";
    "allowed_users"; "allowed_hosts"; "runtime_limits"; "host_specification";
    "attributes"; "statuses"; "max_slots"; "total_slots"; "num_running_slots";
    "num_pending_slots"; "num_suspended_slots"; "num_reserved_slots";
    "max_jobs"; "total_jobs"; "num_running_jobs"; "num_pending_jobs";
    "num_suspended_jobs"; "admins"; "dispatch_windows"; "max_slots_per_job";
    "max_jobs_per_host"; "max_slots_per_host"; "resource_requirements";
    "min_slots_per_job"; "default_slots_per_job"; "checkpoint_data_directory";
    "checkpoint_period"; "is_accepting_jobs"; "is_dispatching_jobs"; "jobs";
    "cluster_type" ].

Definition ResourceLimit_json_attributes : list string :=
  [ "name"; "soft_limit"; "hard_limit"; "description"; "unit" ].

Definition ConsumedResource_json_attributes : list string :=
  [ "name"; "value"; "limit"; "unit" ].

(** [Process.json_attributes]: the two base fields and the names of the
    keyword arguments the instance was built with. *)
Definition Process_json_attributes (extras : list string) : list string :=
  [ "hostname"; "process_id" ] ++ extras.

(** *** JobBase: the datetime views *)

(** A naive [datetime.datetime]. *)
Record datetime := Datetime
  { year : Z; month : Z; day : Z; hour : Z; minute : Z; second : Z }.

(** The civil date of a count of days since 1970-01-01, in the proleptic
    Gregorian calendar. *)
Definition civil_from_days (days : Z) : Z * Z * Z :=
  let z := days + 719468 in
  let era := z / 146097 in
  let doe := z - era * 146097 in
  let yoe := (doe - doe / 1460 + doe / 36524 - doe / 146096) / 365 in
  let doy := doe - (365 * yoe + yoe / 4 - yoe / 100) in
  let mp := (5 * doy + 2) / 153 in
  let d := doy - (153 * mp + 2) / 5 + 1 in
  let m := if mp <? 10 then mp + 3 else mp - 9 in
  let y := yoe + era * 400 in
  (if m <=? 2 then y + 1 else y, m, d).

(** [datetime.utcfromtimestamp] on whole epoch seconds. *)
Definition utcfromtimestamp (t : Z) : result datetime :=
  let '(y, m, d) := civil_from_days (t / 86400) in
  let s := t mod 86400 in
  if (1 <=? y) && (y <=? 9999)
  then Val (Datetime y m d (s / 3600) (s mod 3600 / 60) (s mod 60))
  else Exc (Builtin ValueError "year is out of range").

Section JobBase.
(** The offset, in seconds east of UTC, that the local time zone has at a
    given instant. *)
Variable utcoffset : Z → Z.

(** [datetime.fromtimestamp]: the wall clock of the local zone. *)
Definition fromtimestamp (t : Z) : result datetime :=
  utcfromtimestamp (t + utcoffset t).

(** The base attributes the views read; each is left to the backend and
    either returns epoch seconds or raises. *)
Record JobBase := {
  begin_time : result Z;
  predicted_start_time : result Z;
  end_time : result Z;
  reservation_time : result Z;
  start_time : result Z;
  submit_time : result Z;
  termination_time : result Z;
}.

Definition begin_time_datetime_local (self : JobBase) : result datetime :=
  t ← begin_time self; fromtimestamp t.

Definition predicted_start_time_datetime_local (self : JobBase)
  : result datetime :=
  t ← predicted_start_time self; fromtimestamp t.

Definition end_time_datetime_local (self : JobBase) : result datetime :=
  t ← end_time self; utcfromtimestamp t.

Definition reservation_time_datetime_local (self : JobBase)
  : result datetime :=
  t ← reservation_time self; fromtimestamp t.

Definition start_time_datetime_local (self : JobBase) : result datetime :=
  t ← start_time self; utcfromtimestamp t.

Definition submit_time_datetime_local (self : JobBase) : result datetime :=
  t ← submit_time self; fromtimestamp t.

Definition termination_time_datetime_local (self : JobBase)
  : result datetime :=
  t ← termination_time self; fromtimestamp t.
End JobBase.

End cluster.

(** ** [openlavaweb/views.py] *)

Module views.

(** *** The object store *)

(** What [ClusterEncoder.check] tells apart: the first of its [isinstance]
    tests that an instance passes ([ExecutionHost] is tested before [Host]),
    [Other] when it passes none. *)
Inductive kind := ExecutionHost | Host | Job | Queue | Other.

(** What reading a name on an instance gives. *)
Inductive attribute :=
| Attr (r : result value)   (* a field or a property: the read returns or raises *)
| Meth (r : result value).  (* a method: the read gives the bound method,
                               calling it returns or raises *)

Record object := Object {
  obj_kind : kind;
  obj_class_name : string;                   (* [__class__.__name__] *)
  obj_dict : gmap string attribute;
  obj_json_attributes : option (list string) (* [None]: no such method *)
}.

(** HTTP responses, as far as the views build them. *)
Inductive response_class :=
| HttpResponse
| HttpResponseForbidden
| Http404
| HttpResponseBadRequest.

Inductive http :=
| Json (cls : response_class) (body : json)
| HttpResponseRedirect (url : string)
| render (template : string).

Definition truthy (v : value) : bool :=
  match v with
  | VNone => false
  | VBool b => b
  | VInt n => negb (n =? 0)
  | VFloat q => negb (Qeq_bool q 0)
  | VStr s => negb (String.eqb s "")
  | VList l => match l with [] => false | _ => true end
  | VDict d => negb (bool_decide (d = ∅))
  | VTimedelta td => negb (Qeq_bool (total_seconds td) 0)
  | VRef _ | VMethod _ _ => true
  end.

Section encoder.
(** Django's URL resolver, [reverse(viewname, args=.., kwargs=..)]. *)
Variable reverse : string → list value → gmap string value → result string.
(** The instances that exist while the request is served. *)
Variable store : gmap oid object.
(** The recursion budget of the interpreter. *)
Variable depth : nat.

Definition getattr (o : oid) (name : string) : result value :=
  match store !! o with
  | Some ob =>
      match obj_dict ob !! name with
      | Some (Attr r) => r
      | Some (Meth _) => Val (VMethod o name)
      | None => Exc (Builtin AttributeError name)
      end
  | None => Exc (Builtin AttributeError name)
  end.

(** [hasattr(value, '__call__')] *)
Definition callable (v : value) : bool :=
  match v with VMethod _ _ => true | _ => false end.

(** [value()] *)
Definition call (v : value) : result value :=
  match v with
  | VMethod o name =>
      match store !! o with
      | Some ob =>
          match obj_dict ob !! name with
          | Some (Meth r) => r
          | _ => Exc (Builtin TypeError "object is not callable")
          end
      | None => Exc (Builtin TypeError "object is not callable")
      end
  | _ => Exc (Builtin TypeError "object is not callable")
  end.

Definition kind_of (v : value) : kind :=
  match v with
  | VRef o => match store !! o with Some ob => obj_kind ob | None => Other end
  | _ => Other
  end.

(** [ClusterEncoder.check] *)
Definition check (obj : value) : result value :=
  match obj, kind_of obj with
  | VRef o, ExecutionHost =>
      name ← getattr o "name";
      num_slots ← getattr o "num_slots_for_job";
      url ← reverse "olw_host_view" [name] ∅;
      Val (VDict (<["type" := VStr "ExecutionHost"]>
                 (<["name" := name]>
                 (<["num_slots" := num_slots]>
                 (<["url" := VStr url]> ∅)))))
  | VRef o, Host =>
      name ← getattr o "name";
      url ← reverse "olw_host_view" [name] ∅;
      Val (VDict (<["type" := VStr "Host"]>
                 (<["name" := name]>
                 (<["url" := VStr url]> ∅))))
  | VRef o, Job =>
      name ← getattr o "name";
      job_id ← getattr o "job_id";
      array_index ← getattr o "array_index";
      url ← reverse "olw_job_view_array" [job_id; array_index] ∅;
      user_name ← getattr o "user_name";
      user_url ← reverse "olw_user_view" [user_name] ∅;
      status ← getattr o "status";
      submit_time ← getattr o "submit_time";
      start_time ← getattr o "start_time";
      end_time ← getattr o "end_time";
      Val (VDict (<["type" := VStr "Job"]>
                 (<["name" := name]>
                 (<["job_id" := job_id]>
                 (<["array_index" := array_index]>
                 (<["url" := VStr url]>
                 (<["user_name" := user_name]>
                 (<["user_url" := VStr user_url]>
                 (<["status" := status]>
                 (<["submit_time" := submit_time]>
                 (<["start_time" := start_time]>
                 (<["end_time" := end_time]> ∅))))))))))))
  | VRef o, Queue =>
      name ← getattr o "name";
      url ← reverse "olw_queue_view" [name] ∅;
      Val (VDict (<["type" := VStr "Queue"]>
                 (<["name" := name]>
                 (<["url" := VStr url]> ∅))))
  | _, _ => Val obj
  end.

(** The first two statements of the loop of [default]: the attribute is
    read and, when it is callable, called. *)
Definition resolved (o : oid) (name : string) : result value :=
  value ← getattr o name;
  if callable value then call value else Val value.

(** What the loop of [default] stores under [name]. *)
Definition projected (o : oid) (name : string) : result value :=
  value ← resolved o name;
  match value with
  | VList l => VList <$> mapM check l
  | _ => check value
  end.

Definition default_step (o : oid) (acc : result (gmap string value))
    (name : string) : result (gmap string value) :=
  d ← acc;
  value ← projected o name;
  Val (<[name := value]> d).

(** [ClusterEncoder.default] *)
Definition default (obj : value) : result value :=
  match obj with
  | VTimedelta td => Val (VFloat (total_seconds td))
  | VRef o =>
      match store !! o with
      | Some ob =>
          match obj_json_attributes ob with
          | Some names =>
              VDict <$>
                foldl (default_step o)
                      (Val {[ "type" := VStr (obj_class_name ob) ]}) names
          | None => Exc (Builtin AttributeError "json_attributes")
          end
      | None => Exc (Builtin AttributeError "json_attributes")
      end
  | _ => Exc (Builtin AttributeError "json_attributes")
  end.

(** [json.dumps(data, sort_keys=True, indent=4, cls=ClusterEncoder)] *)
Definition dumps (data : value) : result json :=
  encode default depth [] data.

Definition create_js_response (data : value) (message : value)
    (response : option response_class) (is_failure : bool) : result http :=
  let status := if is_failure then "FAIL" else "OK" in
  let data := <["status" := VStr status]>
             (<["data" := data]>
             (<["message" := message]> ∅)) in
  let response :=
    match response with None => HttpResponse | Some r => r end in
  body ← dumps (VDict data);
  Val (Json response body).

Definition handle_cluster_exception (e : ClusterException) : result http :=
  let response :=
    match cluster.http_response (exc_class e) with
    | Some "HttpResponseForbidden" => Some HttpResponseForbidden
    | Some "Http404" => Some Http404
    | Some "HttpResponseBadRequest" => Some HttpResponseBadRequest
    | _ => None
    end in
  message ← cluster.getattr e "message";
  data ← cluster.json_response e;
  create_js_response data message response true.
End encoder.

(** *** The privilege-separated views *)

(** The calls into the scheduler library: building an entity from its key
    and the methods of the entity built. *)
Inductive scheduler_call :=
| Job_new (job_id array_index : Z)
| Job_kill (job : value)
| Job_suspend (job : value)
| Job_resume (job : value)
| Job_requeue (job : value) (hold : bool)
| Job_submit (kwargs : value)
| Queue_new (queue_name : string)
| Queue_close (q : value)
| Queue_open (q : value)
| Queue_inactivate (q : value)
| Queue_activate (q : value)
| Host_new (host_name : string)
| Host_close (h : value)
| Host_open (h : value).

(** What travels on the channel between the worker and the view. *)
Inductive message :=
| Response (r : http)
| Raised (e : exn).

(** What a process does that another party can see. *)
Inductive event :=
| Start                                   (* [p.start()]: a worker is spawned *)
| Getpwnam (name : string)
| Setuid (uid : Z) (ok : bool)
| Scheduler (euid : Z) (c : scheduler_call) (* a call made under identity [euid] *)
| Put (m : message)
| Join
| Get.

Definition puts (t : list event) : list message :=
  omap (λ e, match e with Put m => Some m | _ => None end) t.

Definition is_scheduler (e : event) : bool :=
  match e with Scheduler _ _ => true | _ => false end.

Record request := Request {
  username : string;        (* [request.user.username] *)
  is_ajax : bool;
  GET : gmap string string;
  method : string;
  POST : gmap string string;
  body : result value       (* [json.loads(request.body)] *)
}.

(** The truth value of [request.GET.get(key, None)]. *)
Definition GET_get (r : request) (key : string) : bool :=
  match GET r !! key with
  | Some s => negb (String.eqb s "")
  | None => false
  end.

(** An instance of a subclass of [OLWSubmit]: whether it validates, and what
    its [_get_args] gives. *)
Record form := Form {
  is_valid : bool;
  _get_args : result (gmap string value)
}.

(** A process: its effective user id, what it did so far, and the messages
    waiting on the channel it reads. *)
Record state := State {
  euid : Z;
  trace : list event;
  channel : list message
}.

Inductive outcome (A : Type) :=
| Returns (a : A)
| Raises (e : exn)
| Blocks.
Arguments Returns {A} a.
Arguments Raises {A} e.
Arguments Blocks {A}.

Definition M (A : Type) : Type := state → outcome A * state.

#[global] Instance M_ret : MRet M := λ A a s, (Returns a, s).
#[global] Instance M_bind : MBind M := λ A B f m s,
  match m s with
  | (Returns a, s') => f a s'
  | (Raises e, s') => (Raises e, s')
  | (Blocks, s') => (Blocks, s')
  end.

#[global] Instance M_fmap : FMap M := λ A B f m s,
  match m s with
  | (Returns a, s') => (Returns (f a), s')
  | (Raises e, s') => (Raises e, s')
  | (Blocks, s') => (Blocks, s')
  end.

Definition raise {A} (e : exn) : M A := λ s, (Raises e, s).

Definition lift {A} (r : result A) : M A :=
  match r with Val a => mret a | Exc e => raise e end.

Definition emit (e : event) : M unit :=
  λ s, (Returns tt, State (euid s) (trace s ++ [e]) (channel s)).

(** [try: body except Exception as e: handler] *)
Definition try_except {A} (body : M A) (handler : exn → M A) : M A :=
  λ s, match body s with
       | (Raises e, s') => handler e s'
       | r => r
       end.

(** [try: body except ClusterException as e: handler] *)
Definition try_except_ClusterException {A} (body : M A)
    (handler : ClusterException → M A) : M A :=
  λ s, match body s with
       | (Raises (Cluster e), s') => handler e s'
       | r => r
       end.

Section executor.
Variable reverse : string → list value → gmap string value → result string.
Variable store : gmap oid object.
Variable depth : nat.
(** The user database of the operating system: account name to user id. *)
Variable passwd : gmap string Z.
(** Whether a process of the first identity may take the second. *)
Variable setuid_permitted : Z → Z → bool.
(** The scheduler: what a call answers, given what happened before and the
    identity of the caller. *)
Variable scheduler : list event → Z → scheduler_call → result value.
(** The subclasses of [OLWSubmit] by name; each builds a form, unbound or
    bound to the posted data. *)
Variable OLWSubmit_subclasses :
  string → option (option (gmap string string) → form).
(** When the worker dies before it returns: after how many of its
    actions. *)
Variable crash : option nat.

Definition pwd_getpwnam (name : string) : M Z :=
  emit (Getpwnam name);;
  match passwd !! name with
  | Some pw_uid => mret pw_uid
  | None => raise (Builtin KeyError "getpwnam(): name not found")
  end.

Definition os_setuid (uid : Z) : M unit :=
  λ s, if setuid_permitted (euid s) uid
       then (Returns tt, State uid (trace s ++ [Setuid uid true]) (channel s))
       else (Raises (Builtin OSError "Operation not permitted"),
             State (euid s) (trace s ++ [Setuid uid false]) (channel s)).

Definition sched (c : scheduler_call) : M value :=
  λ s, lift (scheduler (trace s) (euid s) c)
            (State (euid s) (trace s ++ [Scheduler (euid s) c]) (channel s)).

Definition queue_put (m : message) : M unit := emit (Put m).

Definition js_response (data text : value) : M message :=
  r ← lift (create_js_response reverse store depth data text None false);
  mret (Response r).

Definition redirect (viewname : string) (args : list value)
    (kwargs : gmap string value) : M message :=
  url ← lift (reverse viewname args kwargs);
  mret (Response (HttpResponseRedirect url)).

(** **** The workers *)

Definition execute_queue_close (request : request) (queue_name : string)
  : M unit :=
  try_except
    (user_id ← pwd_getpwnam (username request);
     os_setuid user_id;;
     q ← sched (Queue_new queue_name);
     sched (Queue_close q);;
     if is_ajax request
     then js_response VNone (VStr "Queue closed") ≫= queue_put
     else redirect "olw_queue_view" [] {[ "queue_name" := VStr queue_name ]}
            ≫= queue_put)
    (λ e, queue_put (Raised e)).

Definition execute_queue_open (request : request) (queue_name : string)
  : M unit :=
  try_except
    (user_id ← pwd_getpwnam (username request);
     os_setuid user_id;;
     q ← sched (Queue_new queue_name);
     sched (Queue_open q);;
     if is_ajax request
     then js_response VNone (VStr "Queue opened") ≫= queue_put
     else redirect "olw_queue_view" [] {[ "queue_name" := VStr queue_name ]}
            ≫= queue_put)
    (λ e, queue_put (Raised e)).

Definition execute_queue_inactivate (request : request)
    (queue_name : string) : M unit :=
  try_except
    (user_id ← pwd_getpwnam (username request);
     os_setuid user_id;;
     q ← sched (Queue_new queue_name);
     sched (Queue_inactivate q);;
     if is_ajax request
     then js_response VNone (VStr "Queue inactivated") ≫= queue_put
     else redirect "olw_queue_view" [] {[ "queue_name" := VStr queue_name ]}
            ≫= queue_put)
    (λ e, queue_put (Raised e)).

Definition execute_queue_activate (request : request) (queue_name : string)
  : M unit :=
  try_except
    (user_id ← pwd_getpwnam (username request);
     os_setuid user_id;;
     q ← sched (Queue_new queue_name);
     sched (Queue_activate q);;
     if is_ajax request
     then js_response VNone (VStr "Queue activated") ≫= queue_put
     else redirect "olw_queue_view" [] {[ "queue_name" := VStr queue_name ]}
            ≫= queue_put)
    (λ e, queue_put (Raised e)).

Definition execute_host_close (request : request) (host_name : string)
  : M unit :=
  try_except
    (user_id ← pwd_getpwnam (username request);
     os_setuid user_id;;
     h ← sched (Host_new host_name);
     sched (Host_close h);;
     if is_ajax request
     then js_response VNone (VStr "") ≫= queue_put
     else redirect "olw_host_view" [VStr host_name] ∅ ≫= queue_put)
    (λ e, queue_put (Raised e)).

Definition execute_host_open (request : request) (host_name : string)
  : M unit :=
  try_except
    (user_id ← pwd_getpwnam (username request);
     os_setuid user_id;;
     h ← sched (Host_new host_name);
     sched (Host_open h);;
     if is_ajax request
     then js_response VNone (VStr "") ≫= queue_put
     else redirect "olw_host_view" [VStr host_name] ∅ ≫= queue_put)
    (λ e, queue_put (Raised e)).

Definition execute_job_kill (request : request) (job_id array_index : Z)
  : M unit :=
  try_except
    (user_id ← pwd_getpwnam (username request);
     os_setuid user_id;;
     job ← sched (Job_new job_id array_index);
     sched (Job_kill job);;
     if is_ajax request
     then js_response (VStr "Job Killed") (VStr "") ≫= queue_put
     else redirect "olw_job_list" [] ∅ ≫= queue_put)
    (λ e, queue_put (Raised e)).

Definition execute_job_suspend (request : request) (job_id array_index : Z)
  : M unit :=
  try_except
    (user_id ← pwd_getpwnam (username request);
     os_setuid user_id;;
     job ← sched (Job_new job_id array_index);
     sched (Job_suspend job);;
     if is_ajax request || GET_get request "json"
     then js_response VNone (VStr "Job suspended") ≫= queue_put
     else redirect "olw_job_view_array" [VInt job_id; VInt array_index] ∅
            ≫= queue_put)
    (λ e, queue_put (Raised e)).

Definition execute_job_resume (request : request) (job_id array_index : Z)
  : M unit :=
  try_except
    (user_id ← pwd_getpwnam (username request);
     os_setuid user_id;;
     job ← sched (Job_new job_id array_index);
     sched (Job_resume job);;
     if is_ajax request || GET_get request "json"
     then js_response VNone (VStr "Job Resumed") ≫= queue_put
     else redirect "olw_job_view_array" [VInt job_id; VInt array_index] ∅
            ≫= queue_put)
    (λ e, queue_put (Raised e)).

Definition execute_job_requeue (request : request) (job_id array_index : Z)
    (hold : bool) : M unit :=
  try_except
    (user_id ← pwd_getpwnam (username request);
     os_setuid user_id;;
     job ← sched (Job_new job_id array_index);
     sched (Job_requeue job hold);;
     if is_ajax request || GET_get request "json"
     then js_response VNone (VStr "Job Requeued") ≫= queue_put
     else redirect "olw_job_view_array" [VInt job_id; VInt array_index] ∅
            ≫= queue_put)
    (λ e, queue_put (Raised e)).

(** [jobs[0]] *)
Definition first_job (jobs : value) : result oid :=
  match jobs with
  | VList (VRef o :: _) => Val o
  | VList (_ :: _) => Exc (Builtin AttributeError "job_id")
  | VList [] => Exc (Builtin IndexError "list index out of range")
  | _ => Exc (Builtin TypeError "object has no attribute '__getitem__'")
  end.

(** [OLWSubmit.submit]; [_pre_submit] and [_post_submit] do nothing. *)
Definition OLWSubmit_submit (self : form) (ajax_args : value) : M message :=
  kwargs ← (if truthy ajax_args then mret ajax_args
            else VDict <$> lift (_get_args self));
  try_except
    (jobs ← sched (Job_submit kwargs);
     match jobs with
     | VList _ =>
         if truthy ajax_args
         then js_response jobs (VStr "Job Submitted")
         else
           job ← lift (first_job jobs);
           job_id ← lift (getattr store job "job_id");
           job ← lift (first_job jobs);
           array_index ← lift (getattr store job "array_index");
           redirect "olw_job_view_array" [job_id; array_index] ∅
     | _ => raise (Builtin TypeError "object has no len()")
     end)
    (λ e, mret (Raised e)).

Definition execute_job_submit (request : request) (ajax_args : value)
    (submit_form : form) : M unit :=
  try_except
    (user_id ← pwd_getpwnam (username request);
     os_setuid user_id;;
     OLWSubmit_submit submit_form ajax_args ≫= queue_put)
    (λ e, queue_put (Raised e)).

(** **** The views *)

(** [q = MPQueue()] *)
Definition MPQueue : M unit :=
  λ s, (Returns tt, State (euid s) (trace s) []).

(** What is seen of a worker started under identity [uid]: all that it
    does, or what it did before it died. *)
Definition observed (target : M unit) (uid : Z) : list event :=
  let t := trace (target (State uid [] [])).2 in
  match crash with
  | Some n => take n t
  | None => t
  end.

(** [p = MPProcess(target=..); p.start()]: the worker starts under the
    identity of the view; its messages wait on the channel. *)
Definition start (target : M unit) : M unit :=
  λ s, let seen := observed target (euid s) in
       (Returns tt,
        State (euid s) (trace s ++ Start :: seen) (channel s ++ puts seen)).

(** [p.join()] *)
Definition join : M unit := emit Join.

(** [q.get(block)], once the worker is gone: with nothing on the channel
    a blocking read waits for ever and a non-blocking one raises. *)
Definition queue_get (block : bool) : M message :=
  λ s, let s' := State (euid s) (trace s ++ [Get]) (tail (channel s)) in
       match channel s with
       | m :: _ => (Returns m, s')
       | [] => if block then (Blocks, s')
               else (Raises (Builtin Empty "Empty"), s')
       end.

(** [if isinstance(rc, Exception): raise rc else: return rc] *)
Definition raise_if_Exception (rc : message) : M message :=
  match rc with
  | Raised e => raise e
  | _ => mret rc
  end.

(** [if isinstance(rc, ClusterException): raise rc else: return rc] *)
Definition raise_if_ClusterException (rc : message) : M message :=
  match rc with
  | Raised (Cluster e) => raise (Cluster e)
  | _ => mret rc
  end.

(** The handler that every view has for [ClusterException]. *)
Definition exception_page (request : request) (e : ClusterException)
  : M message :=
  if is_ajax request || GET_get request "json"
  then r ← lift (handle_cluster_exception reverse store depth e);
       mret (Response r)
  else mret (Response (render "openlavaweb/exception.html")).

Definition queue_close (request : request) (queue_name : string) : M message :=
  if GET_get request "confirm" || is_ajax request || GET_get request "json"
  then
    try_except_ClusterException
      (MPQueue;;
       start (execute_queue_close request queue_name);;
       join;;
       rc ← queue_get false;
       raise_if_ClusterException rc)
      (exception_page request)
  else
    sched (Queue_new queue_name);;
    mret (Response (render "openlavaweb/queue_close_confirm.html")).

Definition queue_open (request : request) (queue_name : string) : M message :=
  if GET_get request "confirm" || is_ajax request || GET_get request "json"
  then
    try_except_ClusterException
      (MPQueue;;
       start (execute_queue_open request queue_name);;
       join;;
       rc ← queue_get false;
       raise_if_Exception rc)
      (exception_page request)
  else
    sched (Queue_new queue_name);;
    mret (Response (render "openlavaweb/queue_open_confirm.html")).

Definition queue_inactivate (request : request) (queue_name : string) : M message :=
  if GET_get request "confirm" || is_ajax request || GET_get request "json"
  then
    try_except_ClusterException
      (MPQueue;;
       start (execute_queue_inactivate request queue_name);;
       join;;
       rc ← queue_get false;
       raise_if_Exception rc)
      (exception_page request)
  else
    sched (Queue_new queue_name);;
    mret (Response (render "openlavaweb/queue_inactivate_confirm.html")).

Definition queue_activate (request : request) (queue_name : string) : M message :=
  if GET_get request "confirm" || is_ajax request || GET_get request "json"
  then
    try_except_ClusterException
      (MPQueue;;
       start (execute_queue_activate request queue_name);;
       join;;
       rc ← queue_get false;
       raise_if_Exception rc)
      (exception_page request)
  else
    sched (Queue_new queue_name);;
    mret (Response (render "openlavaweb/queue_activate_confirm.html")).

Definition host_close (request : request) (host_name : string) : M message :=
  if GET_get request "confirm" || is_ajax request || GET_get request "json"
  then
    try_except_ClusterException
      (MPQueue;;
       start (execute_host_close request host_name);;
       join;;
       rc ← queue_get false;
       raise_if_ClusterException rc)
      (exception_page request)
  else
    sched (Host_new host_name);;
    mret (Response (render "openlavaweb/host_close_confirm.html")).

Definition host_open (request : request) (host_name : string) : M message :=
  if GET_get request "confirm" || is_ajax request || GET_get request "json"
  then
    try_except_ClusterException
      (MPQueue;;
       start (execute_host_open request host_name);;
       join;;
       rc ← queue_get false;
       raise_if_Exception rc)
      (exception_page request)
  else
    sched (Host_new host_name);;
    mret (Response (render "openlavaweb/host_open_confirm.html")).

Definition job_kill (request : request) (job_id array_index : Z) : M message :=
  if GET_get request "confirm" || is_ajax request || GET_get request "json"
  then
    try_except_ClusterException
      (MPQueue;;
       start (execute_job_kill request job_id array_index);;
       join;;
       rc ← queue_get false;
       raise_if_Exception rc)
      (exception_page request)
  else
    sched (Job_new job_id array_index);;
    mret (Response (render "openlavaweb/job_kill_confirm.html")).

Definition job_suspend (request : request) (job_id array_index : Z) : M message :=
  if GET_get request "confirm" || is_ajax request || GET_get request "json"
  then
    try_except_ClusterException
      (MPQueue;;
       start (execute_job_suspend request job_id array_index);;
       join;;
       rc ← queue_get false;
       raise_if_Exception rc)
      (exception_page request)
  else
    sched (Job_new job_id array_index);;
    mret (Response (render "openlavaweb/job_suspend_confirm.html")).

Definition job_resume (request : request) (job_id array_index : Z) : M message :=
  if GET_get request "confirm" || is_ajax request || GET_get request "json"
  then
    try_except_ClusterException
      (MPQueue;;
       start (execute_job_resume request job_id array_index);;
       join;;
       rc ← queue_get false;
       raise_if_Exception rc)
      (exception_page request)
  else
    sched (Job_new job_id array_index);;
    mret (Response (render "openlavaweb/job_resume_confirm.html")).

Definition job_requeue (request : request) (job_id array_index : Z)
  : M message :=
  let hold := GET_get request "hold" in
  if GET_get request "confirm" || is_ajax request || GET_get request "json"
  then
    try_except_ClusterException
      (MPQueue;;
       start (execute_job_requeue request job_id array_index hold);;
       join;;
       rc ← queue_get false;
       raise_if_Exception rc)
      (exception_page request)
  else
    sched (Job_new job_id array_index);;
    mret (Response (render "openlavaweb/job_requeue_confirm.html")).

(** The part of [job_submit] after the form is settled. *)
Definition process_form (request : request) (ajax_args : value)
    (form : form) : M message :=
  MPQueue;;
  start (execute_job_submit request ajax_args form);;
  rc ← queue_get true;
  join;;
  try_except_ClusterException
    (raise_if_Exception rc)
    (exception_page request).

Definition job_submit (request : request) (form_class : string)
  : M message :=
  match OLWSubmit_subclasses form_class with
  | None => raise (Builtin TypeError "issubclass() arg 1 must be a class")
  | Some form_class =>
      if is_ajax request || GET_get request "json"
      then
        ajax_args ← lift (body request);
        process_form request ajax_args (form_class None)
      else if String.eqb (method request) "POST"
      then
        let form := form_class (Some (POST request)) in
        if negb (is_valid form)
        then mret (Response (render "openlavaweb/job_submit.html"))
        else process_form request VNone form
      else mret (Response (render "openlavaweb/job_submit.html"))
  end.

(** **** The mutating operations, as a family *)

(** What a worker is started with. *)
Inductive work :=
| kill_job (job_id array_index : Z)
| suspend_job (job_id array_index : Z)
| resume_job (job_id array_index : Z)
| requeue_job (job_id array_index : Z) (hold : bool)
| submit_job (ajax_args : value) (submit_form : form)
| close_host (host_name : string)
| open_host (host_name : string)
| close_queue (queue_name : string)
| open_queue (queue_name : string)
| inactivate_queue (queue_name : string)
| activate_queue (queue_name : string).

Definition worker (w : work) (request : request) : M unit :=
  match w with
  | kill_job job_id array_index =>
      execute_job_kill request job_id array_index
  | suspend_job job_id array_index =>
      execute_job_suspend request job_id array_index
  | resume_job job_id array_index =>
      execute_job_resume request job_id array_index
  | requeue_job job_id array_index hold =>
      execute_job_requeue request job_id array_index hold
  | submit_job ajax_args submit_form =>
      execute_job_submit request ajax_args submit_form
  | close_host host_name => execute_host_close request host_name
  | open_host host_name => execute_host_open request host_name
  | close_queue queue_name => execute_queue_close request queue_name
  | open_queue queue_name => execute_queue_open request queue_name
  | inactivate_queue queue_name => execute_queue_inactivate request queue_name
  | activate_queue queue_name => execute_queue_activate request queue_name
  end.

(** The views that mutate. *)
Inductive operation :=
| op_job_kill (job_id array_index : Z)
| op_job_suspend (job_id array_index : Z)
| op_job_resume (job_id array_index : Z)
| op_job_requeue (job_id array_index : Z)
| op_job_submit (form_class : string)
| op_host_close (host_name : string)
| op_host_open (host_name : string)
| op_queue_close (queue_name : string)
| op_queue_open (queue_name : string)
| op_queue_inactivate (queue_name : string)
| op_queue_activate (queue_name : string).

Definition view (op : operation) (request : request) : M message :=
  match op with
  | op_job_kill job_id array_index => job_kill request job_id array_index
  | op_job_suspend job_id array_index =>
      job_suspend request job_id array_index
  | op_job_resume job_id array_index => job_resume request job_id array_index
  | op_job_requeue job_id array_index =>
      job_requeue request job_id array_index
  | op_job_submit form_class => job_submit request form_class
  | op_host_close host_name => host_close request host_name
  | op_host_open host_name => host_open request host_name
  | op_queue_close queue_name => queue_close request queue_name
  | op_queue_open queue_name => queue_open request queue_name
  | op_queue_inactivate queue_name => queue_inactivate request queue_name
  | op_queue_activate queue_name => queue_activate request queue_name
  end.

(** The work that a view hands to a worker, when the request makes it act
    rather than show a page: the test each view makes before it builds the
    channel. *)
Definition work_of (op : operation) (request : request) : option work :=
  let go := GET_get request "confirm" || is_ajax request
            || GET_get request "json" in
  let when (w : work) := if go then Some w else None in
  match op with
  | op_job_kill job_id array_index => when (kill_job job_id array_index)
  | op_job_suspend job_id array_index =>
      when (suspend_job job_id array_index)
  | op_job_resume job_id array_index => when (resume_job job_id array_index)
  | op_job_requeue job_id array_index =>
      when (requeue_job job_id array_index (GET_get request "hold"))
  | op_job_submit form_class =>
      match OLWSubmit_subclasses form_class with
      | None => None
      | Some form_class =>
          if is_ajax request || GET_get request "json"
          then match body request with
               | Val ajax_args => Some (submit_job ajax_args (form_class None))
               | Exc _ => None
               end
          else if String.eqb (method request) "POST"
          then let form := form_class (Some (POST request)) in
               if negb (is_valid form) then None
               else Some (submit_job VNone form)
          else None
      end
  | op_host_close host_name => when (close_host host_name)
  | op_host_open host_name => when (open_host host_name)
  | op_queue_close queue_name => when (close_queue queue_name)
  | op_queue_open queue_name => when (open_queue queue_name)
  | op_queue_inactivate queue_name => when (inactivate_queue queue_name)
  | op_queue_activate queue_name => when (activate_queue queue_name)
  end.

(** Running a process from scratch under a given identity. *)
Definition run {A} (m : M A) (uid : Z) : outcome A * state :=
  m (State uid [] []).
End executor.

(** *** The overviews of the system *)

(** [states[key] += n]: the key must be there. *)
Definition add_to (states : gmap string Z) (key : string) (n : Z)
  : result (gmap string Z) :=
  match states !! key with
  | Some v => Val (<[key := v + n]> states)
  | None => Exc (Builtin KeyError key)
  end.

(** [try: states[key] += n except KeyError: states[key] = n] *)
Definition add_or_set (states : gmap string Z) (key : string) (n : Z)
  : gmap string Z :=
  match add_to states key n with
  | Val states => states
  | Exc _ => <[key := n]> states
  end.

(** The list of [{'label': k, 'value': v}] built from [states.iteritems()]. *)
Definition nvstates (states : gmap string Z) : value :=
  VList ((λ kv, VDict (<["label" := VStr kv.1]>
                      (<["value" := VInt kv.2]> ∅)))
           <$> map_to_list states).

Section overview.
Variable reverse : string → list value → gmap string value → result string.
Variable store : gmap oid object.
Variable depth : nat.
(** The hosts and jobs that [Cluster()] gives, and what the views read on
    them. *)
Context {Host Job : Type}.
Variable is_server is_down is_busy is_closed : Host → bool.
Variable host_jobs : Host → list Job.
Variable friendly : Job → string.        (* [job.status.friendly] *)
Variable requested_slots : Job → Z.

(** One round of the loop of [system_overview_hosts]. *)
Definition count_host (acc : result (gmap string Z)) (host : Host)
  : result (gmap string Z) :=
  states ← acc;
  if negb (is_server host) then Val states
  else if is_down host then add_to states "Down" 1
  else if is_busy host then add_to states "Full" 1
  else if is_closed host then add_to states "Closed" 1
  else if (0 <? Z.of_nat (length (host_jobs host))) then add_to states "In Use" 1
  else add_to states "Empty" 1.

Definition host_states (hosts : list Host) : result (gmap string Z) :=
  foldl count_host
    (Val (<["Down" := 0]> (<["Full" := 0]> (<["In Use" := 0]>
         (<["Empty" := 0]> (<["Closed" := 0]> ∅))))))
    hosts.

Definition system_overview_hosts (hosts : list Host) : result http :=
  states ← host_states hosts;
  create_js_response reverse store depth (nvstates states) (VStr "") None false.

Definition job_states (jobs : list Job) : gmap string Z :=
  foldl (λ states job, add_or_set states (friendly job) 1) ∅ jobs.

Definition system_overview_jobs (jobs : list Job) : result http :=
  create_js_response reverse store depth (nvstates (job_states jobs))
    (VStr "") None false.

Definition slot_states (jobs : list Job) : gmap string Z :=
  foldl (λ states job, add_or_set states (friendly job) (requested_slots job))
        ∅ jobs.

Definition system_overview_slots (jobs : list Job) : result http :=
  create_js_response reverse store depth (nvstates (slot_states jobs))
    (VStr "") None false.
End overview.

(** *** The submission forms *)

(** One round of the loop of [SimpleJobSubmitForm._get_args]. *)
Definition get_args_step (kwargs : gmap string value)
    (item : string * value) : gmap string value :=
  if bool_decide (item.1 ∈ ["options"; "options2"]) then kwargs
  else if truthy item.2 then <[item.1 := item.2]> kwargs
  else kwargs.

(** [SimpleJobSubmitForm._get_args], on [self.cleaned_data]. *)
Definition SimpleJobSubmitForm_get_args (cleaned_data : gmap string value)
  : gmap string value :=
  foldl get_args_step ∅ (map_to_list cleaned_data).

End views.

(** * Vocabulary of the properties *)

(** What a call returned, or a fallback when it raised. *)
Definition val_or {A} (d : A) (r : result A) : A :=
  match r with Val a => a | Exc _ => d end.

Definition scalar (v : value) : Prop :=
  match v with
  | VNone | VBool _ | VInt _ | VFloat _ | VStr _ => True
  | _ => False
  end.

(** The members of the stub that [check] builds for each kind, and the name
    it writes under [type]. *)
Definition stub_keys (k : views.kind) : gset string :=
  match k with
  | views.ExecutionHost => {[ "type"; "name"; "num_slots"; "url" ]}
  | views.Host | views.Queue => {[ "type"; "name"; "url" ]}
  | views.Job =>
      {[ "type"; "name"; "job_id"; "array_index"; "url"; "user_name";
         "user_url"; "status"; "submit_time"; "start_time"; "end_time" ]}
  | views.Other => ∅
  end.

Definition kind_name (k : views.kind) : string :=
  match k with
  | views.ExecutionHost => "ExecutionHost"
  | views.Host => "Host"
  | views.Job => "Job"
  | views.Queue => "Queue"
  | views.Other => ""
  end.

(** The attributes that [check] reads on an instance of each kind. *)
Definition stub_fields (k : views.kind) : list string :=
  match k with
  | views.ExecutionHost => [ "name"; "num_slots_for_job" ]
  | views.Host | views.Queue => [ "name" ]
  | views.Job =>
      [ "name"; "job_id"; "array_index"; "user_name"; "status";
        "submit_time"; "start_time"; "end_time" ]
  | views.Other => []
  end.

Section vocabulary.
Variable reverse : string → list value → gmap string value → result string.
Variable store : gmap oid views.object.

(** How a value that [default] found under an attribute is projected: a
    list element by element, anything else as a whole. *)
Definition projects (x v : value) : Prop :=
  match x with
  | VList xs =>
      ∃ ys, v = VList ys
            ∧ Forall2 (λ x y, views.check reverse store x = Val y) xs ys
  | _ => views.check reverse store x = Val v
  end.

(** [y] stands for [x] in a projection: a stub when [x] is of one of the
    four kinds that [check] knows, [x] itself otherwise. *)
Definition stubbed (x y : value) : Prop :=
  match views.kind_of store x with
  | views.Other => y = x
  | k => ∃ s, y = VDict s
              ∧ dom s = stub_keys k
              ∧ s !! "type" = Some (VStr (kind_name k))
  end.

(** A scalar, or an instance of one of the four kinds whose identity
    fields are scalars. *)
Definition stubbable (x : value) : Prop :=
  scalar x
  ∨ ∃ r ob, x = VRef r ∧ store !! r = Some ob
            ∧ views.obj_kind ob ≠ views.Other
            ∧ ∀ f, f ∈ stub_fields (views.obj_kind ob) →
                   ∃ v, views.getattr store r f = Val v ∧ scalar v.

(** What [check] gives for such a value: a scalar or a dictionary of
    scalars. *)
Definition plain (y : value) : Prop :=
  scalar y ∨ ∃ s, y = VDict s ∧ map_Forall (λ _ v, scalar v) s.

(** Every declared attribute of [o] gives a scalar, such an instance, or a
    list of those. *)
Definition shallow (o : oid) (names : list string) : Prop :=
  ∀ name, name ∈ names →
    ∃ x, views.resolved store o name = Val x
         ∧ (stubbable x ∨ ∃ xs, x = VList xs ∧ Forall stubbable xs).
End vocabulary.

(** The identity check on a trace: every call of the scheduler is made
    under the identity [target], taken by a [setuid] that succeeded. *)
Fixpoint guarded (target : option Z) (dropped : bool) (t : list views.event)
  : bool :=
  match t with
  | [] => true
  | views.Setuid u true :: t => guarded target (bool_decide (target = Some u)) t
  | views.Scheduler u _ :: t =>
      dropped && bool_decide (target = Some u) && guarded target dropped t
  | _ :: t => guarded target dropped t
  end.

(** The two calls of the scheduler that a worker makes for a piece of
    work on an existing entity: it builds the entity, then acts on what it
    built.  Submission builds nothing first. *)
Definition resolve_call (w : views.work) : option views.scheduler_call :=
  match w with
  | views.kill_job job_id array_index
  | views.suspend_job job_id array_index
  | views.resume_job job_id array_index
  | views.requeue_job job_id array_index _ =>
      Some (views.Job_new job_id array_index)
  | views.submit_job _ _ => None
  | views.close_host host_name | views.open_host host_name =>
      Some (views.Host_new host_name)
  | views.close_queue queue_name | views.open_queue queue_name
  | views.inactivate_queue queue_name | views.activate_queue queue_name =>
      Some (views.Queue_new queue_name)
  end.

Definition mutate_call (w : views.work) (entity : value)
  : option views.scheduler_call :=
  match w with
  | views.kill_job _ _ => Some (views.Job_kill entity)
  | views.suspend_job _ _ => Some (views.Job_suspend entity)
  | views.resume_job _ _ => Some (views.Job_resume entity)
  | views.requeue_job _ _ hold => Some (views.Job_requeue entity hold)
  | views.submit_job _ _ => None
  | views.close_host _ => Some (views.Host_close entity)
  | views.open_host _ => Some (views.Host_open entity)
  | views.close_queue _ => Some (views.Queue_close entity)
  | views.open_queue _ => Some (views.Queue_open entity)
  | views.inactivate_queue _ => Some (views.Queue_inactivate entity)
  | views.activate_queue _ => Some (views.Queue_activate entity)
  end.

(** The entity that a view builds for its confirmation page. *)
Definition confirm_call (op : views.operation) : option views.scheduler_call :=
  match op with
  | views.op_job_kill job_id array_index
  | views.op_job_suspend job_id array_index
  | views.op_job_resume job_id array_index
  | views.op_job_requeue job_id array_index =>
      Some (views.Job_new job_id array_index)
  | views.op_job_submit _ => None
  | views.op_host_close host_name | views.op_host_open host_name =>
      Some (views.Host_new host_name)
  | views.op_queue_close queue_name | views.op_queue_open queue_name
  | views.op_queue_inactivate queue_name | views.op_queue_activate queue_name =>
      Some (views.Queue_new queue_name)
  end.

(** The label under which [system_overview_hosts] counts a host, if it
    counts it. *)
Definition host_label {Host Job : Type}
    (is_server is_down is_busy is_closed : Host → bool)
    (host_jobs : Host → list Job) (host : Host) : option string :=
  if negb (is_server host) then None
  else if is_down host then Some "Down"
  else if is_busy host then Some "Full"
  else if is_closed host then Some "Closed"
  else match host_jobs host with
       | [] => Some "Empty"
       | _ => Some "In Use"
       end.

(** How many elements of a list a test holds for, and the sum of a measure
    over those. *)
Definition count_where {A} (p : A → bool) (l : list A) : Z :=
  Z.of_nat (length (List.filter p l)).

Definition sum_where {A} (p : A → bool) (f : A → Z) (l : list A) : Z :=
  foldr (λ x n, f x + n) 0 (List.filter p l).

(** * Fixtures *)

Module fixtures.
Import views.

(** A resolver that answers every view name with a path. *)
Definition reverse (viewname : string) (args : list value)
    (kwargs : gmap string value) : result string :=
  Val ("/" +:+ viewname).

(** The attributes given, and [None] under every other declared name. *)
Definition declared (names : list string) (d : gmap string attribute)
  : gmap string attribute :=
  d ∪ list_to_map ((λ name, (name, Attr (Val VNone))) <$> names).

(** Job 9767 of alice, in queue [normal], running on [n1]. *)
Definition job : object :=
  Object Job "Job"
    (declared cluster.JobBase_json_attributes
       (list_to_map
          [ ("queue", Meth (Val (VRef 2%nat)));
            ("name", Attr (Val (VStr "sleep 60")));
            ("job_id", Attr (Val (VInt 9767)));
            ("array_index", Attr (Val (VInt 0)));
            ("user_name", Attr (Val (VStr "alice")));
            ("status", Attr (Val (VStr "RUN")));
            ("submit_time", Attr (Val (VInt 1400000000)));
            ("start_time", Attr (Val (VInt 1400000060)));
            ("end_time", Attr (Val (VInt 0)));
            ("consumed_resources", Attr (Val (VList [VRef 3%nat])));
            ("execution_hosts", Attr (Val (VList [VRef 4%nat])));
            ("requested_hosts", Meth (Val (VList []))) ]))
    (Some cluster.JobBase_json_attributes).

(** The queue of that job; its [jobs()] gives the job back. *)
Definition queue : object :=
  Object Queue "Queue"
    (declared cluster.QueueBase_json_attributes
       (list_to_map
          [ ("name", Attr (Val (VStr "normal")));
            ("jobs", Meth (Val (VList [VRef 1%nat]))) ]))
    (Some cluster.QueueBase_json_attributes).

(** [ConsumedResource(name="mem", value=100, limit=200, unit="MB")] *)
Definition consumed : object :=
  Object Other "ConsumedResource"
    (list_to_map
       [ ("name", Attr (Val (VStr "mem")));
         ("value", Attr (Val (VStr "100")));
         ("limit", Attr (Val (VStr "200")));
         ("unit", Attr (Val (VStr "MB"))) ])
    (Some cluster.ConsumedResource_json_attributes).

Definition execution_host : object :=
  Object ExecutionHost "ExecutionHost"
    (declared cluster.HostBase_json_attributes
       (list_to_map
          [ ("name", Attr (Val (VStr "n1")));
            ("host_name", Attr (Val (VStr "n1")));
            ("num_slots_for_job", Attr (Val (VInt 2)));
            ("jobs", Meth (Val (VList [VRef 1%nat]))) ]))
    (Some cluster.HostBase_json_attributes).

(** [Process("n1", 4242, type="thread")] *)
Definition process : object :=
  Object Other "Process"
    (list_to_map
       [ ("hostname", Attr (Val (VStr "n1")));
         ("process_id", Attr (Val (VInt 4242)));
         ("extras", Attr (Val (VList [VStr "type"])));
         ("type", Attr (Val (VStr "thread"))) ])
    (Some (cluster.Process_json_attributes ["type"])).

Definition store : gmap oid object :=
  list_to_map
    [ (1%nat, job); (2%nat, queue); (3%nat, consumed);
      (4%nat, execution_host); (5%nat, process) ].

(** The accounts of the host: alice has one, bob has none. *)
Definition passwd : gmap string Z := {[ "alice" := 1000 ]}.

(** [setuid] as the kernel has it: root may become anyone, anyone else may
    only stay what he is. *)
Definition setuid_permitted (euid uid : Z) : bool :=
  (euid =? 0) || (uid =? euid).

(** [NoSuchJobError("Job not found")] *)
Definition no_such_job : ClusterException :=
  MkClusterException NoSuchJobError
    (<["_extras" := VList []]> {[ "message" := VStr "Job not found" ]}).

(** A scheduler that knows job 9767 and nothing else, and obeys. *)
Definition scheduler (history : list event) (euid : Z) (c : scheduler_call)
  : result value :=
  match c with
  | Job_new 9767 0 => Val (VRef 1%nat)
  | Job_new _ _ => Exc (Cluster no_such_job)
  | Job_submit _ => Val (VList [VRef 1%nat])
  | Queue_new _ => Val (VRef 2%nat)
  | Host_new _ => Val (VRef 4%nat)
  | _ => Val VNone
  end.

Definition OLWSubmit_subclasses (name : string)
  : option (option (gmap string string) → form) :=
  if String.eqb name "SimpleJobSubmitForm"
  then Some (λ _, Form true (Val {[ "command" := VStr "sleep 60" ]}))
  else None.

(** An AJAX request of a logged-in user. *)
Definition ajax (user : string) : request :=
  Request user true ∅ "GET" ∅
    (Val (VDict {[ "command" := VStr "sleep 60" ]})).

(** A request from a browser, neither AJAX nor confirmed. *)
Definition browser (user : string) : request :=
  Request user false ∅ "GET" ∅ (Exc (Builtin ValueError "No JSON object")).

End fixtures.

(** * Properties *)

(** ** The result monad and the encoder of the library *)

Lemma bind_Val {A B} (f : A → result B) (r : result A) (b : B) :
  r ≫= f = Val b ↔ ∃ a, r = Val a ∧ f a = Val b.
Proof.
  destruct r as [a|e]; simpl; split.
  - eauto.
  - by intros (a' & [= ->] & ?).
  - done.
  - by intros (? & ? & ?).
Qed.

Lemma fmap_Val {A B} (f : A → B) (r : result A) (b : B) :
  f <$> r = Val b ↔ ∃ a, r = Val a ∧ b = f a.
Proof.
  destruct r as [a|e]; simpl; split.
  - intros [= <-]. eauto.
  - by intros (a' & [= ->] & ->).
  - done.
  - by intros (? & ? & ?).
Qed.

Lemma mapM_Val {A B} (f : A → result B) (d : B) (l : list A) :
  Forall (λ x, is_Val (f x)) l →
  mapM f l = Val ((λ x, val_or d (f x)) <$> l).
Proof.
  induction 1 as [|x l [y Hy] _ IH]; [done|].
  cbn. rewrite Hy. cbn. by rewrite IH.
Qed.

Lemma mapM_Val_inv {A B} (f : A → result B) (l : list A) (k : list B) :
  mapM f l = Val k → Forall2 (λ x y, f x = Val y) l k.
Proof.
  revert k. induction l as [|x l IH]; intros k.
  - intros [= <-]. constructor.
  - cbn. intros (y & Hy & (k' & Hk' & [= <-])%bind_Val)%bind_Val.
    constructor; auto.
Qed.

Lemma mapM_members_Val {B} (f : value → result B) (d : B)
    (l : list (string * value)) :
  Forall (λ kv, is_Val (f kv.2)) l →
  mapM (λ kv, pair kv.1 <$> f kv.2) l
  = Val (prod_map id (λ v, val_or d (f v)) <$> l).
Proof.
  induction 1 as [|[k v] l [y Hy] _ IH]; [done|].
  cbn in *. rewrite Hy. cbn. by rewrite IH.
Qed.

(** A dictionary whose members all encode is written as the object of
    their encodings. *)
Lemma encode_VDict default depth markers (d : gmap string value) :
  (∀ k v, d !! k = Some v → is_Val (encode default depth markers v)) →
  encode default (S depth) markers (VDict d)
  = Val (JObj ((λ v, val_or JNull (encode default depth markers v)) <$> d)).
Proof.
  intros Hd. cbn -[mapM].
  rewrite (mapM_members_Val _ JNull).
  - cbn. do 2 f_equal.
    rewrite (list_to_map_fmap (λ v, val_or JNull (encode default depth markers v))).
    by rewrite list_to_map_to_list.
  - apply Forall_forall. intros [k v] Hkv%elem_of_map_to_list. eauto.
Qed.

(** ** ClusterBase *)

Lemma problem_hosts_loop {Host} (is_down : Host → bool) (hs acc : list Host) :
  foldl (λ host_list host,
           if is_down host then host_list ++ [host] else host_list) acc hs
  = acc ++ List.filter is_down hs.
Proof.
  revert acc. induction hs as [|h hs IH]; intros acc; simpl.
  - by rewrite app_nil_r.
  - rewrite IH. destruct (is_down h); [|done].
    by rewrite <- app_assoc.
Qed.

Lemma sublist_List_filter {A} (p : A → bool) (l : list A) :
  sublist (List.filter p l) l.
Proof.
  induction l as [|x l IH]; simpl; [constructor|].
  destruct (p x); by constructor.
Qed.



Example problem_hosts_example :
  cluster.problem_hosts snd
    {| cluster.hosts := Val [("n1", true); ("n2", false); ("n3", true)] |}
  = Val [("n1", true); ("n3", true)].
Proof. reflexivity. Qed.

(** ** JobBase *)

Example utcfromtimestamp_epoch :
  cluster.utcfromtimestamp 0 = Val (cluster.Datetime 1970 1 1 0 0 0).
Proof. reflexivity. Qed.

Example utcfromtimestamp_2014 :
  cluster.utcfromtimestamp 1400000000
  = Val (cluster.Datetime 2014 5 13 16 53 20).
Proof. reflexivity. Qed.

Example utcfromtimestamp_leap_day :
  cluster.utcfromtimestamp 951782400 = Val (cluster.Datetime 2000 2 29 0 0 0).
Proof. reflexivity. Qed.

Example utcfromtimestamp_before_epoch :
  cluster.utcfromtimestamp (-1) = Val (cluster.Datetime 1969 12 31 23 59 59).
Proof. reflexivity. Qed.


(** One hour east of UTC, a job submitted and started at the same instant
    shows two different datetimes. *)
Example datetime_views_differ :
  let j := {| cluster.begin_time := Val 0;
              cluster.predicted_start_time := Val 0;
              cluster.end_time := Val 0;
              cluster.reservation_time := Val 0;
              cluster.start_time := Val 1400000000;
              cluster.submit_time := Val 1400000000;
              cluster.termination_time := Val 0 |} in
  cluster.submit_time_datetime_local (λ _, 3600) j
  = Val (cluster.Datetime 2014 5 13 17 53 20)
  ∧ cluster.start_time_datetime_local j
    = Val (cluster.Datetime 2014 5 13 16 53 20).
Proof. split; reflexivity. Qed.

(** ** ClusterException *)

Lemma init_loop_Exc (e : exn) (l : list (string * value)) :
  foldl cluster.init_step (Exc e) l = Exc e.
Proof. by induction l. Qed.

(** The loop of [__init__], on keyword names that are all different and
    none of which is [_extras]: every name is appended to [_extras], every
    value is stored under its name, the rest of the instance is kept. *)
Lemma init_loop (l : list (string * value)) :
  NoDup l.*1 → "_extras" ∉ l.*1 →
  ∀ self xs, attrs self !! "_extras" = Some (VList xs) →
  ∃ e, foldl cluster.init_step (Val self) l = Val e
       ∧ exc_class e = exc_class self
       ∧ attrs e !! "_extras" = Some (VList (xs ++ (VStr <$> l.*1)))
       ∧ (∀ k v, (k, v) ∈ l → attrs e !! k = Some v)
       ∧ (∀ k, k ≠ "_extras" → k ∉ l.*1 → attrs e !! k = attrs self !! k).
Proof.
  induction l as [|[k v] l IH]; intros Hnd Hne self xs Hxs.
  - exists self. rewrite app_nil_r. split_and!; try done.
    intros ?? []%elem_of_nil.
  - cbn in Hnd, Hne. apply NoDup_cons in Hnd as [Hk Hnd].
    apply not_elem_of_cons in Hne as [Hkx Hne].
    cbn. unfold cluster.extras_append. rewrite Hxs. cbn.
    set (self' := cluster.setattr (cluster.setattr self "_extras" _) k v).
    destruct (IH Hnd Hne self' (xs ++ [VStr k])) as (e & He & Hc & Hx & Hin & Hout).
    { cbn. rewrite lookup_insert_ne by done. by rewrite lookup_insert_eq. }
    exists e. split_and!; try done.
    + by rewrite Hx, <- app_assoc.
    + intros k' v' [[= -> ->]|Hin']%elem_of_cons; [|by apply Hin].
      rewrite Hout; [|done..]. cbn. by rewrite lookup_insert_eq.
    + intros k' Hk' [Hkk Hnin]%not_elem_of_cons. rewrite Hout by done.
      cbn. by rewrite !lookup_insert_ne.
Qed.

(** What [__init__] builds when no keyword is named [_extras]. *)
Lemma init_Val (c : cluster_class) (msg : string) (kwargs : gmap string value) :
  "message" ∉ dom kwargs → "self" ∉ dom kwargs → "_extras" ∉ dom kwargs →
  ∃ e, cluster.__init__ c msg kwargs = Val e
       ∧ exc_class e = c
       ∧ attrs e !! "message" = Some (VStr msg)
       ∧ attrs e !! "_extras" = Some (VList (VStr <$> (map_to_list kwargs).*1))
       ∧ (∀ k v, kwargs !! k = Some v → attrs e !! k = Some v).
Proof.
  intros Hm Hs Hx. unfold cluster.__init__.
  rewrite decide_False by tauto.
  destruct (init_loop (map_to_list kwargs)
              (NoDup_fst_map_to_list _)) with
    (self := cluster.setattr (MkClusterException c {[ "message" := VStr msg ]})
               "_extras" (VList [])) (xs := @nil value)
    as (e & He & Hc & Hex & Hin & Hout).
  - intros ([k v] & Hk & Hkv%elem_of_map_to_list)%list_elem_of_fmap.
    cbn in Hk. subst k.
    apply Hx, elem_of_dom. eauto.
  - cbn. by rewrite lookup_insert_eq.
  - exists e. split_and!; try done.
    + rewrite Hout; [done|done|].
      intros ([k v] & Hk & Hkv%elem_of_map_to_list)%list_elem_of_fmap.
    cbn in Hk. subst k.
      apply Hm, elem_of_dom. eauto.
    + intros k v Hkv. by apply Hin, elem_of_map_to_list.
Qed.

(** Whatever the keywords, an instance that [__init__] returns keeps its
    class and the message it was raised with. *)
Lemma init_loop_keeps (l : list (string * value)) (m : value) :
  "message" ∉ l.*1 →
  ∀ self e, attrs self !! "message" = Some m →
  foldl cluster.init_step (Val self) l = Val e →
  exc_class e = exc_class self ∧ attrs e !! "message" = Some m.
Proof.
  induction l as [|[k v] l IH]; intros Hm self e Hself.
  - by intros [= <-].
  - apply not_elem_of_cons in Hm as [Hk Hm]. cbn in Hk. cbn.
    unfold cluster.extras_append.
    destruct (attrs self !! "_extras") as [[]|];
      cbn; rewrite ?init_loop_Exc; try done.
    intros He. apply IH in He as [-> ->]; [done|done|].
    cbn. by rewrite !lookup_insert_ne.
Qed.

Lemma init_keeps (c : cluster_class) (msg : string)
    (kwargs : gmap string value) (e : ClusterException) :
  cluster.__init__ c msg kwargs = Val e →
  exc_class e = c ∧ attrs e !! "message" = Some (VStr msg).
Proof.
  unfold cluster.__init__. case_decide as Hd; [done|].
  intros He. eapply init_loop_keeps in He as [-> ->]; [done| |].
  - intros ([k v] & Hk & Hkv%elem_of_map_to_list)%list_elem_of_fmap.
    cbn in Hk. subst k.
    apply Hd. left. apply elem_of_dom. eauto.
  - by cbn.
Qed.




Lemma to_json_loop_Exc (self : ClusterException) (e : exn) (l : list value) :
  foldl (cluster.to_json_step self) (Exc e) l = Exc e.
Proof. by induction l. Qed.

(** The loop of [to_json]: every name listed is set to the value the instance
    has under it, the other members are kept. *)
Lemma to_json_loop (self : ClusterException) (l : list string) :
  (∀ k, k ∈ l → is_Some (attrs self !! k)) →
  ∀ acc, ∃ fields,
    foldl (cluster.to_json_step self) (Val acc) (VStr <$> l) = Val fields
    ∧ ∀ k, fields !! k = if decide (k ∈ l) then attrs self !! k else acc !! k.
Proof.
  induction l as [|k l IH]; intros Hl acc.
  - exists acc. split; [done|]. intros k. by rewrite decide_False by set_solver.
  - destruct (Hl k) as [v Hv]; [set_solver|].
    cbn. unfold cluster.getattr. rewrite Hv. cbn.
    destruct (IH (λ k' Hk', Hl k' (list_elem_of_further _ _ _ Hk'))
                (<[k := v]> acc)) as (fields & Hfold & Hf).
    rewrite Hfold.
    exists fields. split; [done|]. intros k'. rewrite Hf.
    destruct (decide (k' ∈ l)) as [Hin|Hnin].
    + by rewrite decide_True by set_solver.
    + destruct (decide (k' = k)) as [->|Hne].
      * rewrite decide_True by set_solver. by rewrite lookup_insert_eq.
      * rewrite decide_False by set_solver. by rewrite lookup_insert_ne.
Qed.




(** ** ClusterEncoder *)

Section encoder_facts.
Variable reverse : string → list value → gmap string value → result string.
Variable store : gmap oid views.object.

Lemma default_loop_Exc (o : oid) (e : exn) (names : list string) :
  foldl (views.default_step reverse store o) (Exc e) names = Exc e.
Proof. by induction names. Qed.

(** The loop of [default] when it ends: every name listed was projected,
    and is set to its projection; the other members are kept. *)
Lemma default_loop (o : oid) (names : list string) :
  ∀ acc d,
    foldl (views.default_step reverse store o) (Val acc) names = Val d →
    Forall (λ name, is_Val (views.projected reverse store o name)) names
    ∧ ∀ k, d !! k = if decide (k ∈ names)
                    then Some (val_or VNone (views.projected reverse store o k))
                    else acc !! k.
Proof.
  induction names as [|name names IH]; intros acc d.
  - intros [= <-]. split; [constructor|].
    intros k. by rewrite decide_False by set_solver.
  - cbn. destruct (views.projected reverse store o name) as [v|e] eqn:Hv;
      cbn; [|by rewrite default_loop_Exc].
    intros [Hall Hd]%IH. split.
    + constructor; [by eexists|done].
    + intros k. rewrite Hd. destruct (decide (k ∈ names)) as [Hin|Hnin].
      * by rewrite decide_True by set_solver.
      * destruct (decide (k = name)) as [->|Hne].
        -- rewrite decide_True by set_solver.
           by rewrite lookup_insert_eq, Hv.
        -- rewrite decide_False by set_solver. by rewrite lookup_insert_ne.
Qed.

(** The loop of [default] ends when every name listed can be projected. *)
Lemma default_loop_Val (o : oid) (names : list string) :
  Forall (λ name, is_Val (views.projected reverse store o name)) names →
  ∀ acc, is_Val (foldl (views.default_step reverse store o) (Val acc) names).
Proof.
  induction 1 as [|name names [v Hv] _ IH]; intros acc.
  - by eexists.
  - cbn. rewrite Hv. cbn. apply IH.
Qed.

Lemma projected_projects (o : oid) (name : string) (v : value) :
  views.projected reverse store o name = Val v ↔
  ∃ x, views.resolved store o name = Val x ∧ projects reverse store x v.
Proof.
  unfold views.projected. rewrite bind_Val.
  apply exist_proper. intros x. apply and_iff_compat_l.
  unfold projects. destruct x; try done.
  rewrite fmap_Val. split.
  - intros (ys & Hys%mapM_Val_inv & ->). eauto.
  - intros (ys & -> & Hys). exists ys. split; [|done].
    induction Hys as [|x y xs ys Hxy _ IH]; [done|].
    cbn. rewrite Hxy. cbn. by rewrite IH.
Qed.


Ltac invert_binds H :=
  repeat (apply bind_Val in H as (? & ? & H)); injection H as <-.

(** What [check] returns stands for what it was given. *)
Lemma check_stubbed (x y : value) :
  views.check reverse store x = Val y → stubbed store x y.
Proof.
  unfold stubbed, views.check.
  destruct x; try (cbn; by intros [= <-]).
  destruct (views.kind_of store (VRef o)); intros H;
    try (by injection H as <-); invert_binds H;
    (eexists; split; [done|]; split; [|by rewrite lookup_insert_eq]);
    rewrite !dom_insert_L, dom_empty_L; cbn; set_solver.
Qed.

Lemma projects_stubbed (x v : value) :
  projects reverse store x v →
  match x with
  | VList xs => ∃ ys, v = VList ys ∧ Forall2 (stubbed store) xs ys
  | _ => stubbed store x v
  end.
Proof.
  unfold projects. destruct x; try apply check_stubbed.
  intros (ys & -> & Hys). exists ys. split; [done|].
  eapply Forall2_impl; [done|]. apply check_stubbed.
Qed.

Lemma encode_scalar dflt (n : nat) (markers : list oid) (v : value) :
  scalar v → is_Val (encode dflt (S n) markers v).
Proof. destruct v; intros []; by eexists. Qed.

Lemma encode_plain dflt (n : nat) (markers : list oid) (y : value) :
  plain y → is_Val (encode dflt (S (S n)) markers y).
Proof.
  intros [Hy|(s & -> & Hs)]; [by apply encode_scalar|].
  rewrite encode_VDict; [by eexists|].
  intros k v Hk. apply encode_scalar. by apply (Hs k).
Qed.

Lemma encode_plain_list dflt (n : nat) (markers : list oid) (ys : list value) :
  Forall plain ys → is_Val (encode dflt (S (S (S n))) markers (VList ys)).
Proof.
  intros Hys.
  change (is_Val (JArr <$> mapM (encode dflt (S (S n)) markers) ys)).
  rewrite (mapM_Val _ JNull); [by eexists|].
  eapply Forall_impl; [done|]. intros y. apply encode_plain.
Qed.

Lemma check_scalar (x : value) :
  scalar x → views.check reverse store x = Val x.
Proof. by destruct x. Qed.

Ltac read_field Hf name :=
  let v := fresh "v" in
  let Hv := fresh "Hv" in
  let Hs := fresh "Hs" in
  destruct (Hf name) as (v & Hv & Hs); [set_solver|];
  rewrite Hv; cbn [mbind result_bind].

Ltac locate Hrev :=
  match goal with
  | |- context [reverse ?v ?a ?k] =>
      let u := fresh "url" in
      let Hu := fresh "Hu" in
      destruct (Hrev v a k) as [u Hu]; rewrite Hu; cbn [mbind result_bind]
  end.

(** With a resolver that always answers, [check] turns a stubbable value
    into a scalar or a dictionary of scalars. *)
Lemma check_stubbable (x : value) :
  (∀ v a k, is_Val (reverse v a k)) →
  stubbable store x →
  ∃ y, views.check reverse store x = Val y ∧ plain y.
Proof.
  intros Hrev [Hx|(r & ob & -> & Hr & Hk & Hf)].
  { exists x. split; [by apply check_scalar|by left]. }
  unfold views.check. cbn [views.kind_of]. rewrite Hr.
  destruct (views.obj_kind ob) eqn:Hkind; [..|done]; cbn [stub_fields] in Hf.
  - read_field Hf "name". read_field Hf "num_slots_for_job". locate Hrev.
    eexists. split; [done|]. right. eexists. split; [done|].
    repeat apply map_Forall_insert_2; done || apply map_Forall_empty.
  - read_field Hf "name". locate Hrev.
    eexists. split; [done|]. right. eexists. split; [done|].
    repeat apply map_Forall_insert_2; done || apply map_Forall_empty.
  - read_field Hf "name". read_field Hf "job_id". read_field Hf "array_index".
    locate Hrev. read_field Hf "user_name". locate Hrev.
    read_field Hf "status". read_field Hf "submit_time".
    read_field Hf "start_time". read_field Hf "end_time".
    eexists. split; [done|]. right. eexists. split; [done|].
    repeat apply map_Forall_insert_2; done || apply map_Forall_empty.
  - read_field Hf "name". locate Hrev.
    eexists. split; [done|]. right. eexists. split; [done|].
    repeat apply map_Forall_insert_2; done || apply map_Forall_empty.
Qed.

Lemma check_stubbable_list (xs : list value) :
  (∀ v a k, is_Val (reverse v a k)) →
  Forall (stubbable store) xs →
  ∃ ys, mapM (views.check reverse store) xs = Val ys ∧ Forall plain ys.
Proof.
  intros Hrev. induction 1 as [|x xs Hx _ (ys & Hys & Hp)].
  - by exists [].
  - destruct (check_stubbable x Hrev Hx) as (y & Hy & Hpy).
    exists (y :: ys). cbn. rewrite Hy. cbn. rewrite Hys. cbn.
    split; [done|]. by constructor.
Qed.

(** A shallow attribute is projected to something that is encoded without
    any further call of [default]. *)
Lemma projected_shallow (o : oid) (names : list string) (name : string) :
  (∀ v a k, is_Val (reverse v a k)) →
  shallow store o names → name ∈ names →
  ∃ v, views.projected reverse store o name = Val v
       ∧ ∀ dflt n markers, is_Val (encode dflt (S (S (S n))) markers v).
Proof.
  intros Hrev Hsh Hin.
  destruct (Hsh name Hin) as (x & Hx & [Hst|(xs & -> & Hxs)]).
  - destruct (check_stubbable x Hrev Hst) as (y & Hy & Hp).
    exists y. split; [|intros; by apply encode_plain].
    unfold views.projected. rewrite Hx. cbn.
    destruct Hst as [Hs|(r & ob & -> & _)]; [|done]. by destruct x.
  - destruct (check_stubbable_list xs Hrev Hxs) as (ys & Hys & Hp).
    exists (VList ys). split; [|intros; by apply encode_plain_list].
    unfold views.projected. rewrite Hx. cbn. by rewrite Hys.
Qed.


End encoder_facts.




(** A job and its queue refer to each other; each is encoded, with the
    other as a stub. *)
Example encode_job_and_queue :
  ∃ mj mq,
    encode (views.default fixtures.reverse fixtures.store) 6 [] (VRef 1%nat)
    = Val (JObj mj)
    ∧ mj !! "queue"
      = Some (JObj (list_to_map [ ("type", JStr "Queue");
                                  ("name", JStr "normal");
                                  ("url", JStr "/olw_queue_view") ]))
    ∧ encode (views.default fixtures.reverse fixtures.store) 5 [] (VRef 2%nat)
      = Val (JObj mq)
    ∧ mq !! "jobs"
      = Some (JArr [JObj (list_to_map
                [ ("type", JStr "Job"); ("name", JStr "sleep 60");
                  ("job_id", JInt 9767); ("array_index", JInt 0);
                  ("url", JStr "/olw_job_view_array");
                  ("user_name", JStr "alice");
                  ("user_url", JStr "/olw_user_view");
                  ("status", JStr "RUN"); ("submit_time", JInt 1400000000);
                  ("start_time", JInt 1400000060); ("end_time", JInt 0) ])]).
Proof.
  do 2 eexists. split; [vm_compute; reflexivity|].
  split; [vm_compute; reflexivity|].
  split; [vm_compute; reflexivity|].
  vm_compute. reflexivity.
Qed.


(** ** The privilege-separated views *)

(** What the identity check on a trace means. *)
Lemma guarded_sound (target : option Z) (t : list views.event) :
  ∀ dropped, guarded target dropped t = true →
  ∀ i u c, t !! i = Some (views.Scheduler u c) →
    target = Some u
    ∧ (dropped = true
       ∨ ∃ j, (j < i)%nat ∧ t !! j = Some (views.Setuid u true)).
Proof.
  induction t as [|e t IH]; intros dropped Hg i u c Hi; [done|].
  destruct i as [|i].
  - injection Hi as ->. cbn in Hg.
    apply andb_prop in Hg as [[-> Ht%bool_decide_eq_true]%andb_prop _]. auto.
  - cbn in Hi.
    assert (∀ d, guarded target d t = true →
                 (d = true → dropped = true ∨ e = views.Setuid u true) →
                 target = Some u
                 ∧ (dropped = true
                    ∨ ∃ j, (j < S i)%nat
                           ∧ (e :: t) !! j = Some (views.Setuid u true)))
      as Hstep.
    { intros d Hd Hdrop. destruct (IH d Hd i u c Hi) as [Ht [->|(j & Hj & Hs)]].
      - split; [done|]. destruct Hdrop as [?| ->]; [done|by left|].
        right. exists 0%nat. split; [lia|done].
      - split; [done|]. right. exists (S j). split; [lia|done]. }
    destruct e as [| |u' [|]| | | |]; cbn in Hg;
      try (by apply (Hstep dropped); auto).
    + apply (Hstep _ Hg). intros Hd%bool_decide_eq_true. right.
      destruct (IH _ Hg i u c Hi) as [Ht _]. congruence.
    + apply andb_prop in Hg as [_ Hg]. apply (Hstep dropped); auto.
Qed.

Lemma guarded_take (target : option Z) (t : list views.event) (n : nat) :
  ∀ dropped, guarded target dropped t = true →
             guarded target dropped (take n t) = true.
Proof.
  revert n. induction t as [|e t IH]; intros [|n] dropped Hg; try done.
  destruct e as [| |u' [|]| | | |]; cbn in *; auto.
  apply andb_prop in Hg as [-> Hg]. cbn. auto.
Qed.

Section executor_facts.
Variable reverse : string → list value → gmap string value → result string.
Variable store : gmap oid views.object.
Variable depth : nat.
Variable passwd : gmap string Z.
Variable setuid_permitted : Z → Z → bool.
Variable scheduler : list views.event → Z → views.scheduler_call → result value.

Local Notation worker :=
  (views.worker reverse store depth passwd setuid_permitted scheduler).

(** One step of a worker: the answer of the operating system, of the
    scheduler or of a library is met and told apart. *)
Ltac answer :=
  match goal with
  | |- context [passwd !! ?n] => destruct (passwd !! n) eqn:?
  | |- context [setuid_permitted ?a ?b] => destruct (setuid_permitted a b) eqn:?
  | |- context [scheduler ?t ?u ?c] => destruct (scheduler t u c) eqn:?
  | |- context [views.create_js_response ?r ?s ?d ?a ?b ?c ?f] =>
      destruct (views.create_js_response r s d a b c f) eqn:?
  | |- context [reverse ?v ?a ?k] => destruct (reverse v a k) eqn:?
  | |- context [views.first_job ?j] => destruct (views.first_job j) eqn:?
  | |- context [views.getattr ?s ?o ?n] => destruct (views.getattr s o n) eqn:?
  | |- context [views._get_args ?f] => destruct (views._get_args f) eqn:?
  | |- context [views.truthy ?v] => destruct (views.truthy v) eqn:?
  | |- context [views.is_ajax ?r] => destruct (views.is_ajax r) eqn:?
  | |- context [views.GET_get ?r ?k] => destruct (views.GET_get r k) eqn:?
  | |- context [match ?v with _ => _ end] => is_var v; destruct v
  end.

Ltac unfold_worker :=
  cbv beta iota zeta delta
    [views.worker views.run views.execute_job_kill views.execute_job_suspend
     views.execute_job_resume views.execute_job_requeue
     views.execute_job_submit views.execute_host_close views.execute_host_open
     views.execute_queue_close views.execute_queue_open
     views.execute_queue_inactivate views.execute_queue_activate
     views.OLWSubmit_submit views.try_except views.pwd_getpwnam
     views.os_setuid views.sched views.queue_put views.emit views.lift
     views.raise views.js_response views.redirect
     mbind mret fmap views.M_bind views.M_ret views.M_fmap
     snd fst views.trace views.euid views.channel app].

Ltac run_worker := unfold_worker; repeat (answer; unfold_worker).

Lemma worker_guarded (w : views.work) (request : views.request) (uid0 : Z) :
  guarded (passwd !! views.username request) false
          (views.trace (views.run (worker w request) uid0).2) = true.
Proof.
  destruct w; run_worker;
    cbn; rewrite ?bool_decide_eq_true_2 by done; done.
Qed.

Lemma worker_without_account (w : views.work) (request : views.request)
    (uid0 : Z) :
  passwd !! views.username request = None →
  views.run (worker w request) uid0
  = (views.Returns tt,
     views.State uid0
       [ views.Getpwnam (views.username request);
         views.Put (views.Raised
                      (Builtin KeyError "getpwnam(): name not found")) ]
       []).
Proof. intros H. destruct w; unfold_worker; by rewrite H. Qed.

Lemma worker_without_drop (w : views.work) (request : views.request)
    (uid0 uid : Z) :
  passwd !! views.username request = Some uid →
  setuid_permitted uid0 uid = false →
  views.run (worker w request) uid0
  = (views.Returns tt,
     views.State uid0
       [ views.Getpwnam (views.username request);
         views.Setuid uid false;
         views.Put (views.Raised
                      (Builtin OSError "Operation not permitted")) ]
       []).
Proof.
  intros H1 H2. destruct w; unfold_worker; rewrite H1; unfold_worker;
    by rewrite H2.
Qed.

(** C1: in what is seen of a worker, whenever and whether it dies, every
    call of the scheduler is made under the user id that the account of the
    requesting user resolves to, after a [setuid] to that id that succeeded;
    when the account does not resolve, or the [setuid] is refused, the worker
    makes no call of the scheduler at all. *)
Theorem identity_dropped_before_scheduler (crash : option nat)
    (w : views.work) (request : views.request) (uid0 : Z) :
  let t := views.observed crash (worker w request) uid0 in
  (∀ i u c, t !! i = Some (views.Scheduler u c) →
     passwd !! views.username request = Some u
     ∧ ∃ j, (j < i)%nat ∧ t !! j = Some (views.Setuid u true))
  ∧ (passwd !! views.username request = None →
     Forall (λ e, views.is_scheduler e = false) t)
  ∧ (∀ uid, passwd !! views.username request = Some uid →
            setuid_permitted uid0 uid = false →
            Forall (λ e, views.is_scheduler e = false) t).
Proof.
  intros t.
  assert (∀ l, Forall (λ e, views.is_scheduler e = false) l →
               Forall (λ e, views.is_scheduler e = false)
                 match crash with Some n => take n l | None => l end)
    as Htake.
  { intros l Hl. destruct crash; [by apply Forall_take|done]. }
  split_and!.
  - intros i u c Hi.
    assert (guarded (passwd !! views.username request) false t = true) as Hg.
    { pose proof (worker_guarded w request uid0) as Hg. unfold t, views.observed.
      destruct crash; [by apply guarded_take|done]. }
    destruct (guarded_sound _ _ _ Hg i u c Hi) as [Hu [?|?]]; done.
  - intros H. unfold t, views.observed. apply Htake.
    change (worker w request (views.State uid0 [] []))
      with (views.run (worker w request) uid0).
    rewrite worker_without_account by done. cbn. by repeat constructor.
  - intros uid H1 H2. unfold t, views.observed. apply Htake.
    change (worker w request (views.State uid0 [] []))
      with (views.run (worker w request) uid0).
    rewrite (worker_without_drop _ _ _ uid) by done. cbn. by repeat constructor.
Qed.

(** A worker that is left to run puts exactly one message on the channel,
    and that is the last thing it does. *)
Theorem worker_puts_once (w : views.work) (request : views.request)
    (uid0 : Z) :
  ∃ m, views.puts (views.trace (views.run (worker w request) uid0).2) = [m]
       ∧ last (views.trace (views.run (worker w request) uid0).2)
         = Some (views.Put m).
Proof.
  destruct w; run_worker; eexists; split; reflexivity.
Qed.

(** When the account resolves, the identity is taken and the scheduler
    accepts both calls, a worker on an existing entity builds the entity
    once, acts on it once, both under the identity of the user, and
    answers. *)
Theorem worker_acts_once (w : views.work) (request : views.request)
    (uid0 uid : Z) (c1 c2 : views.scheduler_call) (entity r : value) :
  let t1 := [ views.Getpwnam (views.username request);
              views.Setuid uid true ] in
  passwd !! views.username request = Some uid →
  setuid_permitted uid0 uid = true →
  resolve_call w = Some c1 →
  scheduler t1 uid c1 = Val entity →
  mutate_call w entity = Some c2 →
  scheduler (t1 ++ [views.Scheduler uid c1]) uid c2 = Val r →
  ∃ m, views.trace (views.run (worker w request) uid0).2
       = t1 ++ [ views.Scheduler uid c1; views.Scheduler uid c2; views.Put m ].
Proof.
  intros t1 Hpw Hset Hc1 Hs1 Hc2 Hs2.
  destruct w; try discriminate; injection Hc1 as <-; injection Hc2 as <-;
    unfold t1 in *; cbn [app] in *; unfold_worker;
    rewrite Hpw; unfold_worker; rewrite Hset; unfold_worker;
    rewrite Hs1; unfold_worker; rewrite Hs2; run_worker; by eexists.
Qed.

(** When the scheduler refuses to build the entity, the worker does not act:
    the failure goes on the channel as it is. *)
Theorem worker_unresolved_entity (w : views.work) (request : views.request)
    (uid0 uid : Z) (c1 : views.scheduler_call) (e : exn) :
  let t1 := [ views.Getpwnam (views.username request);
              views.Setuid uid true ] in
  passwd !! views.username request = Some uid →
  setuid_permitted uid0 uid = true →
  resolve_call w = Some c1 →
  scheduler t1 uid c1 = Exc e →
  views.trace (views.run (worker w request) uid0).2
  = t1 ++ [ views.Scheduler uid c1; views.Put (views.Raised e) ].
Proof.
  intros t1 Hpw Hset Hc1 Hs1.
  destruct w; try discriminate; injection Hc1 as <-;
    unfold t1 in *; cbn [app] in *; unfold_worker;
    rewrite Hpw; unfold_worker; rewrite Hset; unfold_worker;
    by rewrite Hs1.
Qed.


End executor_facts.

Section view_facts.
Variable reverse : string → list value → gmap string value → result string.
Variable store : gmap oid views.object.
Variable depth : nat.
Variable passwd : gmap string Z.
Variable setuid_permitted : Z → Z → bool.
Variable scheduler : list views.event → Z → views.scheduler_call → result value.
Variable OLWSubmit_subclasses :
  string → option (option (gmap string string) → views.form).
Variable crash : option nat.

Local Notation worker :=
  (views.worker reverse store depth passwd setuid_permitted scheduler).
Local Notation view :=
  (views.view reverse store depth passwd setuid_permitted scheduler
     OLWSubmit_subclasses crash).
Local Notation work_of := (views.work_of OLWSubmit_subclasses).

Ltac unfold_view :=
  cbv beta iota zeta delta
    [views.view views.run views.work_of views.worker
     views.job_kill views.job_suspend views.job_resume views.job_requeue
     views.job_submit views.process_form views.host_close views.host_open
     views.queue_close views.queue_open views.queue_inactivate
     views.queue_activate views.try_except_ClusterException views.MPQueue
     views.start views.join views.queue_get views.raise_if_Exception
     views.raise_if_ClusterException views.emit views.lift views.raise
     mbind mret views.M_bind views.M_ret
     snd fst views.trace views.euid views.channel app tail] in *.

(** The tests a view makes on the request before it starts a worker. *)
Ltac gate :=
  match goal with
  | H : context [if ?b then _ else _] |- _ => destruct b eqn:?
  | H : context [match OLWSubmit_subclasses ?n with _ => _ end] |- _ =>
      destruct (OLWSubmit_subclasses n) eqn:?
  | H : context [match views.body ?r with _ => _ end] |- _ =>
      destruct (views.body r) eqn:?
  end; try discriminate.

Ltac started Hw :=
  unfold_view; repeat gate; injection Hw as <-; unfold_view.

(** C2, as the code has it: when nothing is on the channel once the worker
    is gone, no failure of the taxonomy is made up.  The non-blocking read of
    the ten views that join first raises [Empty], which their handler for
    [ClusterException] lets through; [job_submit] reads before it joins,
    without a bound, and waits for ever. *)
Theorem worker_gone_without_message (op : views.operation)
    (request : views.request) (w : views.work) (uid0 : Z) :
  work_of op request = Some w →
  views.puts (views.observed crash (worker w request) uid0) = [] →
  (views.run (view op request) uid0).1
  = match op with
    | views.op_job_submit _ => views.Blocks
    | _ => views.Raises (Builtin Empty "Empty")
    end.
Proof.
  intros Hw Hputs. destruct op; started Hw; by rewrite Hputs.
Qed.

Lemma observed_without_account (w : views.work) (request : views.request)
    (uid0 : Z) :
  passwd !! views.username request = None →
  views.observed crash (worker w request) uid0
  = let t := [ views.Getpwnam (views.username request);
               views.Put (views.Raised
                            (Builtin KeyError "getpwnam(): name not found")) ] in
    match crash with Some n => take n t | None => t end.
Proof.
  intros H. unfold views.observed.
  change (worker w request (views.State uid0 [] []))
    with (views.run (worker w request) uid0).
  by rewrite worker_without_account.
Qed.

(** C3, as the code has it: the account is looked up inside the worker, so
    a request of a user without an account does start a worker; the worker
    makes no call of the scheduler and, unless it dies first, puts the
    [KeyError] of the lookup on the channel; the view makes no call of the
    scheduler either and, for every operation but the two whose check is
    [isinstance(rc, ClusterException)], raises that [KeyError] as it is. *)
Theorem no_account_fails_in_worker (op : views.operation)
    (request : views.request) (w : views.work) (uid0 : Z) :
  work_of op request = Some w →
  passwd !! views.username request = None →
  let r := views.run (view op request) uid0 in
  let e := Builtin KeyError "getpwnam(): name not found" in
  views.trace r.2 !! 0%nat = Some views.Start
  ∧ Forall (λ e, views.is_scheduler e = false) (views.trace r.2)
  ∧ (crash = None →
     views.trace r.2
     = views.Start :: views.Getpwnam (views.username request)
         :: views.Put (views.Raised e)
         :: match op with
            | views.op_job_submit _ => [views.Get; views.Join]
            | _ => [views.Join; views.Get]
            end
     ∧ match op with
       | views.op_queue_close _ | views.op_host_close _ => True
       | _ => r.1 = views.Raises e
       end).
Proof.
  intros Hw Hpw.
  pose proof (observed_without_account w request uid0 Hpw) as Hobs.
  destruct op; started Hw; rewrite Hobs;
    destruct crash as [[|[|n]]|]; cbn; rewrite ?take_nil; cbn;
    (split_and!; [done|by repeat constructor|done]).
Qed.

(** A view hands on the response that its worker put on the channel. *)
Theorem view_returns_response (op : views.operation)
    (request : views.request) (w : views.work) (uid0 : Z)
    (r : views.http) (rest : list views.message) :
  work_of op request = Some w →
  views.puts (views.observed crash (worker w request) uid0)
  = views.Response r :: rest →
  (views.run (view op request) uid0).1 = views.Returns (views.Response r).
Proof.
  intros Hw Hputs. destruct op; started Hw; by rewrite Hputs.
Qed.

(** A failure of the taxonomy that the worker put on the channel is raised
    again in the view and caught by its handler: an AJAX or [?json] request
    is answered by [handle_cluster_exception], any other by the exception
    page. *)
Theorem view_reports_cluster_exception (op : views.operation)
    (request : views.request) (w : views.work) (uid0 : Z)
    (e : ClusterException) (rest : list views.message) :
  work_of op request = Some w →
  views.puts (views.observed crash (worker w request) uid0)
  = views.Raised (Cluster e) :: rest →
  (views.run (view op request) uid0).1
  = if views.is_ajax request || views.GET_get request "json"
    then match views.handle_cluster_exception reverse store depth e with
         | Val r => views.Returns (views.Response r)
         | Exc e' => views.Raises e'
         end
    else views.Returns
           (views.Response (views.render "openlavaweb/exception.html")).
Proof.
  intros Hw Hputs.
  destruct op; started Hw; rewrite Hputs;
    cbv beta iota zeta delta [views.exception_page];
    destruct (views.is_ajax request || views.GET_get request "json");
    try done;
    unfold_view;
    by destruct (views.handle_cluster_exception reverse store depth e).
Qed.

(** Any other exception that the worker put on the channel is outside the
    handler of the view.  The views that test [isinstance(rc, Exception)]
    raise it as it is; [queue_close] and [host_close], which test
    [isinstance(rc, ClusterException)], return the exception object as if it
    were their response. *)
Theorem view_foreign_exception (op : views.operation)
    (request : views.request) (w : views.work) (uid0 : Z)
    (c : builtin_class) (msg : string) (rest : list views.message) :
  work_of op request = Some w →
  views.puts (views.observed crash (worker w request) uid0)
  = views.Raised (Builtin c msg) :: rest →
  (views.run (view op request) uid0).1
  = match op with
    | views.op_queue_close _ | views.op_host_close _ =>
        views.Returns (views.Raised (Builtin c msg))
    | _ => views.Raises (Builtin c msg)
    end.
Proof.
  intros Hw Hputs. destruct op; started Hw; by rewrite Hputs.
Qed.

(** Without [confirm], AJAX or [?json], a view on an existing entity starts
    no worker and changes nothing: it builds the entity once, under its own
    identity, for the confirmation page, and raises what the scheduler
    raises. *)
Theorem view_asks_for_confirmation (op : views.operation)
    (request : views.request) (uid0 : Z) (c : views.scheduler_call) :
  confirm_call op = Some c →
  views.GET_get request "confirm" = false →
  views.is_ajax request = false →
  views.GET_get request "json" = false →
  let r := views.run (view op request) uid0 in
  views.trace r.2 = [views.Scheduler uid0 c]
  ∧ match scheduler [] uid0 c with
    | Val _ => ∃ page, r.1 = views.Returns (views.Response (views.render page))
    | Exc e => r.1 = views.Raises e
    end.
Proof.
  intros Hc H1 H2 H3.
  destruct op; try discriminate; injection Hc as <-;
    cbv beta iota zeta delta
      [views.view views.run views.job_kill views.job_suspend views.job_resume
       views.job_requeue views.host_close views.host_open views.queue_close
       views.queue_open views.queue_inactivate views.queue_activate];
    rewrite H1, H2, H3; cbn [orb];
    cbv beta iota zeta delta
      [views.sched views.lift views.raise mbind mret views.M_bind views.M_ret
       snd fst views.trace views.euid views.channel app];
    destruct (scheduler [] uid0 _); (split; [done|]); by eauto.
Qed.

(** A request that makes a view act starts exactly one worker, first of
    all; after what is seen of the worker the view only joins it and reads
    the channel, and calls the scheduler itself not once. *)
Theorem view_starts_one_worker (op : views.operation)
    (request : views.request) (w : views.work) (uid0 : Z) :
  work_of op request = Some w →
  ∃ rest,
    views.trace (views.run (view op request) uid0).2
    = views.Start :: views.observed crash (worker w request) uid0 ++ rest
    ∧ Forall (λ e, e = views.Join ∨ e = views.Get) rest.
Proof.
  intros Hw.
  assert (∀ (l : list views.event) a b, (l ++ [a]) ++ [b] = l ++ [a; b])
    as Happ.
  { intros l a b. by rewrite <- app_assoc. }
  destruct op; started Hw;
    destruct (views.puts _) as [|[r|[c m|e]] tl];
    cbv beta iota zeta delta [views.exception_page];
    try destruct (views.is_ajax request || views.GET_get request "json");
    unfold_view;
    try destruct (views.handle_cluster_exception reverse store depth e);
    cbv beta iota zeta delta [snd views.trace];
    first [ exists [views.Join; views.Get];
            split; [f_equal; apply Happ|repeat first [apply Forall_nil_2|apply Forall_cons_2; [by auto|]]]
          | exists [views.Get; views.Join];
            split; [f_equal; apply Happ|repeat first [apply Forall_nil_2|apply Forall_cons_2; [by auto|]]]
          | exists [views.Get];
            split; [reflexivity|repeat first [apply Forall_nil_2|apply Forall_cons_2; [by auto|]]] ].
Qed.

(** A request that does not make a view act starts no worker: the view
    builds the entity for its confirmation page, under its own identity, and
    [job_submit], which has no such page, does nothing at all. *)
Theorem view_without_work (op : views.operation) (request : views.request)
    (uid0 : Z) :
  work_of op request = None →
  views.trace (views.run (view op request) uid0).2
  = match confirm_call op with
    | Some c => [views.Scheduler uid0 c]
    | None => []
    end.
Proof.
  intros Hw.
  destruct op; unfold_view; repeat gate;
    cbv beta iota zeta delta [views.sched views.lift];
    try destruct (scheduler _ _ _); reflexivity.
Qed.

End view_facts.

Lemma worker_gone_without_message_witness :
  views.work_of fixtures.OLWSubmit_subclasses
    (views.op_job_kill 9767 0) (fixtures.ajax "alice")
  = Some (views.kill_job 9767 0)
  ∧ views.puts
      (views.observed (Some 0%nat)
         (views.worker fixtures.reverse fixtures.store 10 fixtures.passwd
            fixtures.setuid_permitted fixtures.scheduler
            (views.kill_job 9767 0) (fixtures.ajax "alice")) 0) = []
  ∧ (views.run
       (views.view fixtures.reverse fixtures.store 10 fixtures.passwd
          fixtures.setuid_permitted fixtures.scheduler
          fixtures.OLWSubmit_subclasses (Some 0%nat)
          (views.op_job_kill 9767 0) (fixtures.ajax "alice")) 0).1
    = views.Raises (Builtin Empty "Empty").
Proof.
  split; [reflexivity|]. split; [reflexivity|].
  apply (worker_gone_without_message fixtures.reverse fixtures.store 10
           fixtures.passwd fixtures.setuid_permitted fixtures.scheduler
           fixtures.OLWSubmit_subclasses (Some 0%nat)
           (views.op_job_kill 9767 0) (fixtures.ajax "alice")
           (views.kill_job 9767 0) 0); reflexivity.
Defined.

(** C2, as the claim has it, fails: with a worker that dies before it puts
    anything, [job_kill] raises [Empty], which is no failure of the taxonomy,
    and [job_submit] does not return. *)
Lemma empty_channel_not_reported :
  (views.run
     (views.job_kill fixtures.reverse fixtures.store 10 fixtures.passwd
        fixtures.setuid_permitted fixtures.scheduler (Some 0%nat)
        (fixtures.ajax "alice") 9767 0) 0).1
  = views.Raises (Builtin Empty "Empty")
  ∧ (views.run
       (views.job_submit fixtures.reverse fixtures.store 10 fixtures.passwd
          fixtures.setuid_permitted fixtures.scheduler
          fixtures.OLWSubmit_subclasses (Some 0%nat)
          (fixtures.ajax "alice") "SimpleJobSubmitForm") 0).1
    = views.Blocks.
Proof. split; vm_compute; reflexivity. Qed.

Lemma no_account_fails_in_worker_witness :
  views.work_of fixtures.OLWSubmit_subclasses
    (views.op_job_suspend 9767 0) (fixtures.ajax "bob")
  = Some (views.suspend_job 9767 0)
  ∧ fixtures.passwd !! views.username (fixtures.ajax "bob") = None
  ∧ let r := views.run
               (views.view fixtures.reverse fixtures.store 10 fixtures.passwd
                  fixtures.setuid_permitted fixtures.scheduler
                  fixtures.OLWSubmit_subclasses None
                  (views.op_job_suspend 9767 0) (fixtures.ajax "bob")) 0 in
    let e := Builtin KeyError "getpwnam(): name not found" in
    views.trace r.2 !! 0%nat = Some views.Start
    ∧ Forall (λ e, views.is_scheduler e = false) (views.trace r.2)
    ∧ ((None : option nat) = None →
       views.trace r.2
       = views.Start :: views.Getpwnam (views.username (fixtures.ajax "bob"))
           :: views.Put (views.Raised e) :: [views.Join; views.Get]
       ∧ r.1 = views.Raises e).
Proof.
  split; [reflexivity|]. split; [reflexivity|].
  apply (no_account_fails_in_worker fixtures.reverse fixtures.store 10
           fixtures.passwd fixtures.setuid_permitted fixtures.scheduler
           fixtures.OLWSubmit_subclasses None
           (views.op_job_suspend 9767 0) (fixtures.ajax "bob")
           (views.suspend_job 9767 0) 0); reflexivity.
Defined.

(** C3, as the claim has it, fails: bob has no account; his request to kill
    a job starts a worker, the lookup fails in it, and what the view raises
    is the [KeyError] of the lookup, not a denial of the taxonomy. *)
Lemma no_account_worker_started :
  let r := views.run
             (views.job_kill fixtures.reverse fixtures.store 10 fixtures.passwd
                fixtures.setuid_permitted fixtures.scheduler None
                (fixtures.ajax "bob") 9767 0) 0 in
  fixtures.passwd !! "bob" = None
  ∧ views.trace r.2
    = [ views.Start; views.Getpwnam "bob";
        views.Put (views.Raised
                     (Builtin KeyError "getpwnam(): name not found"));
        views.Join; views.Get ]
  ∧ r.1 = views.Raises (Builtin KeyError "getpwnam(): name not found").
Proof. split_and!; vm_compute; reflexivity. Qed.

(** C4 on the code: alice kills job 9767 by AJAX.  The worker takes her
    identity, resolves the job, kills it and answers; the text [Job Killed]
    is passed as the first argument of [create_js_response], which is
    [data], and the message is left empty. *)
Theorem job_kill_envelope :
  let r := views.run
             (views.job_kill fixtures.reverse fixtures.store 10 fixtures.passwd
                fixtures.setuid_permitted fixtures.scheduler None
                (fixtures.ajax "alice") 9767 0) 0 in
  let envelope :=
    views.Response
      (views.Json views.HttpResponse
         (JObj (list_to_map [ ("status", JStr "OK");
                              ("data", JStr "Job Killed");
                              ("message", JStr "") ]))) in
  r.1 = views.Returns envelope
  ∧ views.trace r.2
    = [ views.Start; views.Getpwnam "alice"; views.Setuid 1000 true;
        views.Scheduler 1000 (views.Job_new 9767 0);
        views.Scheduler 1000 (views.Job_kill (VRef 1%nat));
        views.Put envelope; views.Join; views.Get ].
Proof. split; vm_compute; reflexivity. Qed.

(** The sibling view passes its text as [message]. *)
Example job_suspend_envelope :
  (views.run
     (views.job_suspend fixtures.reverse fixtures.store 10 fixtures.passwd
        fixtures.setuid_permitted fixtures.scheduler None
        (fixtures.ajax "alice") 9767 0) 0).1
  = views.Returns
      (views.Response
         (views.Json views.HttpResponse
            (JObj (list_to_map [ ("status", JStr "OK"); ("data", JNull);
                                 ("message", JStr "Job suspended") ])))).
Proof. vm_compute. reflexivity. Qed.

(** Killing a job that the scheduler does not know: the failure of the
    worker comes back as the FAIL envelope. *)
Example job_kill_not_found :
  (views.run
     (views.job_kill fixtures.reverse fixtures.store 10 fixtures.passwd
        fixtures.setuid_permitted fixtures.scheduler None
        (fixtures.ajax "alice") 9999 0) 0).1
  = views.Returns
      (views.Response
         (views.Json views.HttpResponse
            (JObj (list_to_map
               [ ("status", JStr "FAIL");
                 ("data", JObj (list_to_map
                    [ ("exception_class", JStr "NoSuchJobError");
                      ("message", JStr "Job not found") ]));
                 ("message", JStr "Job not found") ])))).
Proof. vm_compute. reflexivity. Qed.

(** ** The protocol of the views, on the fixtures *)

Lemma worker_acts_once_witness :
  fixtures.passwd !! views.username (fixtures.ajax "alice") = Some 1000
  ∧ fixtures.setuid_permitted 0 1000 = true
  ∧ ∃ m, views.trace
           (views.run
              (views.worker fixtures.reverse fixtures.store 10 fixtures.passwd
                 fixtures.setuid_permitted fixtures.scheduler
                 (views.kill_job 9767 0) (fixtures.ajax "alice")) 0).2
         = [ views.Getpwnam "alice"; views.Setuid 1000 true ]
           ++ [ views.Scheduler 1000 (views.Job_new 9767 0);
                views.Scheduler 1000 (views.Job_kill (VRef 1%nat));
                views.Put m ].
Proof.
  split; [reflexivity|]. split; [reflexivity|].
  apply (worker_acts_once fixtures.reverse fixtures.store 10 fixtures.passwd
           fixtures.setuid_permitted fixtures.scheduler
           (views.kill_job 9767 0) (fixtures.ajax "alice") 0 1000
           (views.Job_new 9767 0) (views.Job_kill (VRef 1%nat))
           (VRef 1%nat) VNone); reflexivity.
Defined.

Lemma worker_unresolved_entity_witness :
  fixtures.passwd !! views.username (fixtures.ajax "alice") = Some 1000
  ∧ fixtures.setuid_permitted 0 1000 = true
  ∧ views.trace
      (views.run
         (views.worker fixtures.reverse fixtures.store 10 fixtures.passwd
            fixtures.setuid_permitted fixtures.scheduler
            (views.kill_job 9999 0) (fixtures.ajax "alice")) 0).2
    = [ views.Getpwnam "alice"; views.Setuid 1000 true ]
      ++ [ views.Scheduler 1000 (views.Job_new 9999 0);
           views.Put (views.Raised (Cluster fixtures.no_such_job)) ].
Proof.
  split; [reflexivity|]. split; [reflexivity|].
  apply (worker_unresolved_entity fixtures.reverse fixtures.store 10
           fixtures.passwd fixtures.setuid_permitted fixtures.scheduler
           (views.kill_job 9999 0) (fixtures.ajax "alice") 0 1000
           (views.Job_new 9999 0) (Cluster fixtures.no_such_job));
    reflexivity.
Defined.

Lemma view_returns_response_witness :
  ∃ r,
    views.work_of fixtures.OLWSubmit_subclasses
      (views.op_queue_close "normal") (fixtures.ajax "alice")
    = Some (views.close_queue "normal")
    ∧ views.puts
        (views.observed None
           (views.worker fixtures.reverse fixtures.store 10 fixtures.passwd
              fixtures.setuid_permitted fixtures.scheduler
              (views.close_queue "normal") (fixtures.ajax "alice")) 0)
      = views.Response r :: []
    ∧ (views.run
         (views.view fixtures.reverse fixtures.store 10 fixtures.passwd
            fixtures.setuid_permitted fixtures.scheduler
            fixtures.OLWSubmit_subclasses None
            (views.op_queue_close "normal") (fixtures.ajax "alice")) 0).1
      = views.Returns (views.Response r).
Proof.
  eexists. split; [reflexivity|]. split; [vm_compute; reflexivity|].
  eapply (view_returns_response fixtures.reverse fixtures.store 10
            fixtures.passwd fixtures.setuid_permitted fixtures.scheduler
            fixtures.OLWSubmit_subclasses None
            (views.op_queue_close "normal") (fixtures.ajax "alice")
            (views.close_queue "normal") 0 _ []);
    [reflexivity|vm_compute; reflexivity].
Defined.

Lemma view_reports_cluster_exception_witness :
  views.work_of fixtures.OLWSubmit_subclasses
    (views.op_job_resume 9999 0) (fixtures.ajax "alice")
  = Some (views.resume_job 9999 0)
  ∧ views.puts
      (views.observed None
         (views.worker fixtures.reverse fixtures.store 10 fixtures.passwd
            fixtures.setuid_permitted fixtures.scheduler
            (views.resume_job 9999 0) (fixtures.ajax "alice")) 0)
    = views.Raised (Cluster fixtures.no_such_job) :: []
  ∧ (views.run
       (views.view fixtures.reverse fixtures.store 10 fixtures.passwd
          fixtures.setuid_permitted fixtures.scheduler
          fixtures.OLWSubmit_subclasses None
          (views.op_job_resume 9999 0) (fixtures.ajax "alice")) 0).1
    = if views.is_ajax (fixtures.ajax "alice")
         || views.GET_get (fixtures.ajax "alice") "json"
      then match views.handle_cluster_exception fixtures.reverse
                   fixtures.store 10 fixtures.no_such_job with
           | Val r => views.Returns (views.Response r)
           | Exc e' => views.Raises e'
           end
      else views.Returns
             (views.Response (views.render "openlavaweb/exception.html")).
Proof.
  split; [reflexivity|]. split; [vm_compute; reflexivity|].
  apply (view_reports_cluster_exception fixtures.reverse fixtures.store 10
           fixtures.passwd fixtures.setuid_permitted fixtures.scheduler
           fixtures.OLWSubmit_subclasses None
           (views.op_job_resume 9999 0) (fixtures.ajax "alice")
           (views.resume_job 9999 0) 0 fixtures.no_such_job []);
    [reflexivity|vm_compute; reflexivity].
Defined.

Lemma view_foreign_exception_witness :
  views.work_of fixtures.OLWSubmit_subclasses
    (views.op_queue_close "normal") (fixtures.ajax "bob")
  = Some (views.close_queue "normal")
  ∧ views.puts
      (views.observed None
         (views.worker fixtures.reverse fixtures.store 10 fixtures.passwd
            fixtures.setuid_permitted fixtures.scheduler
            (views.close_queue "normal") (fixtures.ajax "bob")) 0)
    = views.Raised (Builtin KeyError "getpwnam(): name not found") :: []
  ∧ (views.run
       (views.view fixtures.reverse fixtures.store 10 fixtures.passwd
          fixtures.setuid_permitted fixtures.scheduler
          fixtures.OLWSubmit_subclasses None
          (views.op_queue_close "normal") (fixtures.ajax "bob")) 0).1
    = views.Returns
        (views.Raised (Builtin KeyError "getpwnam(): name not found")).
Proof.
  split; [reflexivity|]. split; [vm_compute; reflexivity|].
  apply (view_foreign_exception fixtures.reverse fixtures.store 10
           fixtures.passwd fixtures.setuid_permitted fixtures.scheduler
           fixtures.OLWSubmit_subclasses None
           (views.op_queue_close "normal") (fixtures.ajax "bob")
           (views.close_queue "normal") 0
           KeyError "getpwnam(): name not found" []);
    [reflexivity|vm_compute; reflexivity].
Defined.

Lemma view_asks_for_confirmation_witness :
  confirm_call (views.op_job_kill 9767 0) = Some (views.Job_new 9767 0)
  ∧ views.GET_get (fixtures.browser "alice") "confirm" = false
  ∧ views.is_ajax (fixtures.browser "alice") = false
  ∧ views.GET_get (fixtures.browser "alice") "json" = false
  ∧ let r := views.run
               (views.view fixtures.reverse fixtures.store 10 fixtures.passwd
                  fixtures.setuid_permitted fixtures.scheduler
                  fixtures.OLWSubmit_subclasses None
                  (views.op_job_kill 9767 0) (fixtures.browser "alice")) 0 in
    views.trace r.2 = [views.Scheduler 0 (views.Job_new 9767 0)]
    ∧ match fixtures.scheduler [] 0 (views.Job_new 9767 0) with
      | Val _ =>
          ∃ page, r.1 = views.Returns (views.Response (views.render page))
      | Exc e => r.1 = views.Raises e
      end.
Proof.
  split; [reflexivity|]. split; [reflexivity|]. split; [reflexivity|].
  split; [reflexivity|].
  apply (view_asks_for_confirmation fixtures.reverse fixtures.store 10
           fixtures.passwd fixtures.setuid_permitted fixtures.scheduler
           fixtures.OLWSubmit_subclasses None
           (views.op_job_kill 9767 0) (fixtures.browser "alice") 0
           (views.Job_new 9767 0)); reflexivity.
Defined.

(** ** The overviews of the system *)

Lemma count_where_cons {A} (p : A → bool) (x : A) (l : list A) :
  count_where p (x :: l) = (if p x then 1 else 0) + count_where p l.
Proof.
  unfold count_where. cbn. destruct (p x); cbn [length]; lia.
Qed.

Lemma count_where_nonneg {A} (p : A → bool) (l : list A) :
  0 ≤ count_where p l.
Proof. unfold count_where. lia. Qed.

Lemma sum_where_cons {A} (p : A → bool) (f : A → Z) (x : A) (l : list A) :
  sum_where p f (x :: l) = (if p x then f x else 0) + sum_where p f l.
Proof. unfold sum_where. cbn. by destruct (p x). Qed.

Lemma sum_where_ones {A} (p : A → bool) (l : list A) :
  sum_where p (λ _, 1) l = count_where p l.
Proof.
  induction l as [|x l IH]; [done|].
  rewrite sum_where_cons, count_where_cons, IH. done.
Qed.

Lemma add_or_set_lookup (states : gmap string Z) (key k : string) (n : Z) :
  views.add_or_set states key n !! k
  = if decide (key = k)
    then Some (match states !! key with Some v => v + n | None => n end)
    else states !! k.
Proof.
  unfold views.add_or_set, views.add_to.
  destruct (states !! key) as [v|] eqn:Hkey; case_decide as Hk; subst;
    by rewrite ?lookup_insert_eq, ?lookup_insert_ne.
Qed.

(** The loop shared by [system_overview_jobs] and [system_overview_slots]:
    under each status, what was there plus the weights of the jobs of that
    status; a status that was not there and that no job has stays out. *)
Lemma add_or_set_loop {Job} (friendly : Job → string) (f : Job → Z)
    (jobs : list Job) (k : string) :
  ∀ acc,
    foldl (λ states job, views.add_or_set states (friendly job) (f job))
          acc jobs !! k
    = let p := λ job, bool_decide (friendly job = k) in
      match acc !! k with
      | Some v => Some (v + sum_where p f jobs)
      | None => if decide (count_where p jobs = 0) then None
                else Some (sum_where p f jobs)
      end.
Proof.
  induction jobs as [|job jobs IH]; intros acc; cbn zeta.
  - cbn. destruct (acc !! k); [f_equal; lia|done].
  - cbn [foldl]. rewrite IH. cbn zeta.
    rewrite add_or_set_lookup, sum_where_cons, count_where_cons.
    pose proof (count_where_nonneg (λ job, bool_decide (friendly job = k)) jobs).
    case_decide as Hk.
    + rewrite bool_decide_eq_true_2 by done. subst k.
      destruct (acc !! friendly job) as [v|].
      * f_equal; lia.
      * rewrite decide_False by lia. f_equal; lia.
    + rewrite bool_decide_eq_false_2 by done.
      destruct (acc !! k) as [v|]; [f_equal; lia|].
      repeat case_decide; try lia; f_equal; lia.
Qed.

(** [system_overview_jobs] counts the jobs by the friendly name of their
    status: a status is there when some job has it, with the number of jobs
    that have it. *)
Theorem job_states_histogram {Job} (friendly : Job → string)
    (jobs : list Job) (k : string) :
  views.job_states friendly jobs !! k
  = let n := count_where (λ job, bool_decide (friendly job = k)) jobs in
    if decide (n = 0) then None else Some n.
Proof.
  unfold views.job_states. rewrite (add_or_set_loop friendly (λ _, 1)).
  cbn zeta. rewrite lookup_empty, sum_where_ones. done.
Qed.

(** [system_overview_slots] adds up the requested slots by the friendly name
    of the status: a status is there when some job has it, with the sum of
    the slots those jobs request, which may be zero. *)
Theorem slot_states_sums {Job} (friendly : Job → string)
    (requested_slots : Job → Z) (jobs : list Job) (k : string) :
  views.slot_states friendly requested_slots jobs !! k
  = let p := λ job, bool_decide (friendly job = k) in
    if decide (count_where p jobs = 0) then None
    else Some (sum_where p requested_slots jobs).
Proof.
  unfold views.slot_states. rewrite (add_or_set_loop friendly requested_slots).
  cbn zeta. by rewrite lookup_empty.
Qed.

Section host_overview.
Context {Host Job : Type}.
Variable is_server is_down is_busy is_closed : Host → bool.
Variable host_jobs : Host → list Job.

Local Notation label :=
  (host_label is_server is_down is_busy is_closed host_jobs).
Local Notation count_host :=
  (views.count_host is_server is_down is_busy is_closed host_jobs).
Local Notation host_states :=
  (views.host_states is_server is_down is_busy is_closed host_jobs).

Lemma count_host_label (acc : gmap string Z) (h : Host) :
  count_host (Val acc) h
  = match label h with
    | None => Val acc
    | Some l => views.add_to acc l 1
    end.
Proof.
  unfold views.count_host, host_label. cbn.
  destruct (is_server h), (is_down h), (is_busy h), (is_closed h); cbn;
    try done.
  by destruct (host_jobs h).
Qed.

Lemma count_host_Exc (e : exn) (hosts : list Host) :
  foldl count_host (Exc e) hosts = Exc e.
Proof. by induction hosts. Qed.

Lemma label_known (h : Host) (l : string) :
  label h = Some l →
  l ∈ ["Down"; "Full"; "In Use"; "Empty"; "Closed"].
Proof.
  unfold host_label.
  destruct (is_server h), (is_down h), (is_busy h), (is_closed h); cbn;
    try destruct (host_jobs h); intros [= <-]; set_solver.
Qed.

(** The loop of [system_overview_hosts], from counters that have the five
    labels: it ends, keeps the labels, and adds to each the number of hosts
    counted under it. *)
Lemma count_host_loop (hosts : list Host) :
  ∀ acc,
    (∀ l, l ∈ ["Down"; "Full"; "In Use"; "Empty"; "Closed"] →
          is_Some (acc !! l)) →
    ∃ states,
      foldl count_host (Val acc) hosts = Val states
      ∧ ∀ k, states !! k
             = (λ v, v + count_where (λ h, bool_decide (label h = Some k)) hosts)
                 <$> acc !! k.
Proof.
  induction hosts as [|h hosts IH]; intros acc Hacc.
  - exists acc. split; [done|]. intros k. unfold count_where. cbn.
    destruct (acc !! k); cbn; [f_equal; lia|done].
  - cbn [foldl]. rewrite count_host_label.
    destruct (label h) as [l|] eqn:Hl.
    + destruct (Hacc l (label_known h l Hl)) as [v Hv].
      unfold views.add_to. rewrite Hv.
      destruct (IH (<[l := v + 1]> acc)) as (states & Hst & Hk).
      { intros l' Hl'. destruct (decide (l = l')) as [->|Hne].
        - rewrite lookup_insert_eq. eauto.
        - rewrite lookup_insert_ne by done. auto. }
      exists states. split; [done|]. intros k. rewrite Hk, count_where_cons.
      destruct (decide (l = k)) as [->|Hne].
      * rewrite lookup_insert_eq, Hv, bool_decide_eq_true_2 by done.
        cbn. f_equal; lia.
      * rewrite lookup_insert_ne by done.
        rewrite bool_decide_eq_false_2 by congruence.
        by destruct (acc !! k).
    + destruct (IH acc Hacc) as (states & Hst & Hk).
      exists states. split; [done|]. intros k. rewrite Hk, count_where_cons.
      rewrite bool_decide_eq_false_2 by congruence. by destruct (acc !! k).
Qed.

Lemma labels_partition (hosts : list Host) :
  let n k := count_where (λ h, bool_decide (label h = Some k)) hosts in
  n "Down" + n "Full" + n "In Use" + n "Empty" + n "Closed"
  = count_where is_server hosts.
Proof.
  cbn zeta. induction hosts as [|h hosts IH]; [done|].
  rewrite !count_where_cons, <- IH.
  assert (is_server h = bool_decide (is_Some (label h))) as ->.
  { unfold host_label.
    destruct (is_server h), (is_down h), (is_busy h), (is_closed h); cbn;
      try destruct (host_jobs h); cbn;
      first [ done
            | by rewrite bool_decide_eq_true_2 by eauto
            | by rewrite bool_decide_eq_false_2 by (by intros []) ]. }
  destruct (label h) as [l|] eqn:Hl.
  - rewrite (bool_decide_eq_true_2 (is_Some (Some l))) by eauto.
    pose proof (label_known h l Hl) as Hin.
    assert (l = "Down" ∨ l = "Full" ∨ l = "In Use" ∨ l = "Empty"
            ∨ l = "Closed") as Hcase by set_solver.
    destruct_or!; subst l; repeat case_bool_decide; simplify_eq; lia.
  - rewrite (bool_decide_eq_false_2 (is_Some None)) by (by intros []).
    repeat case_bool_decide; simplify_eq; lia.
Qed.

(** [system_overview_hosts] never fails on its counters.  Its five labels
    are always there; each server is counted under exactly one of them (down
    before full, full before closed, closed before in use or empty), a host
    that is no server under none, so the five counts add up to the number of
    servers. *)
Theorem host_states_counts (hosts : list Host) :
  ∃ states,
    host_states hosts = Val states
    ∧ dom states = {[ "Down"; "Full"; "In Use"; "Empty"; "Closed" ]}
    ∧ (∀ k, k ∈ dom states →
            states !! k
            = Some (count_where (λ h, bool_decide (label h = Some k)) hosts))
    ∧ (∀ down full used empty closed,
         states !! "Down" = Some down → states !! "Full" = Some full →
         states !! "In Use" = Some used → states !! "Empty" = Some empty →
         states !! "Closed" = Some closed →
         down + full + used + empty + closed = count_where is_server hosts).
Proof.
  set (zero := <["Down" := 0]> (<["Full" := 0]> (<["In Use" := 0]>
               (<["Empty" := 0]> (<["Closed" := 0]> (∅ : gmap string Z)))))).
  destruct (count_host_loop hosts zero) as (states & Hst & Hk).
  { intros l Hl. apply elem_of_dom. unfold zero.
    rewrite !dom_insert_L, dom_empty_L. set_solver. }
  assert (dom states = dom zero) as Hdom.
  { apply set_eq. intros k. rewrite !elem_of_dom, Hk.
    by rewrite fmap_is_Some. }
  assert (∀ k, k ∈ dom states →
            states !! k
            = Some (count_where (λ h, bool_decide (label h = Some k)) hosts))
    as Hcount.
  { intros k. rewrite Hdom. unfold zero.
    rewrite !dom_insert_L, dom_empty_L, Hk.
    intros Hin. unfold zero.
    assert (k = "Down" ∨ k = "Full" ∨ k = "In Use" ∨ k = "Empty"
            ∨ k = "Closed") as Hcase by set_solver.
    destruct_or!; subst k; by vm_compute. }
  exists states. split_and!; [done| |done|].
  - rewrite Hdom. unfold zero. rewrite !dom_insert_L, dom_empty_L. set_solver.
  - intros down full used empty closed H1 H2 H3 H4 H5.
    assert (∀ k, k ∈ ["Down"; "Full"; "In Use"; "Empty"; "Closed"] →
                 k ∈ dom states) as Hin.
    { intros k Hk'. rewrite Hdom. unfold zero.
      rewrite !dom_insert_L, dom_empty_L. set_solver. }
    rewrite Hcount in H1, H2, H3, H4, H5 by (apply Hin; set_solver).
    simplify_eq. apply labels_partition.
Qed.

End host_overview.

(** ** The response envelope *)

Section response_facts.
Variable reverse : string → list value → gmap string value → result string.
Variable store : gmap oid views.object.

Lemma create_js_response_Val (d : nat) (data message : value)
    (response : option views.response_class) (is_failure : bool)
    (j jm : json) :
  encode (views.default reverse store) (S d) [] data = Val j →
  encode (views.default reverse store) (S d) [] message = Val jm →
  views.create_js_response reverse store (S (S d)) data message response
    is_failure
  = Val (views.Json
           (match response with None => views.HttpResponse | Some r => r end)
           (JObj (<["status" := JStr (if is_failure then "FAIL" else "OK")]>
                 (<["data" := j]> (<["message" := jm]> ∅))))).
Proof.
  intros Hj Hjm. unfold views.create_js_response, views.dumps.
  rewrite encode_VDict.
  - cbn [mbind result_bind]. do 3 f_equal.
    rewrite !fmap_insert, fmap_empty, Hj, Hjm. done.
  - intros k v Hk.
    apply lookup_insert_Some in Hk as [[_ <-]|[_ Hk]]; [by eexists|].
    apply lookup_insert_Some in Hk as [[_ <-]|[_ Hk]]; [by eexists|].
    apply lookup_insert_Some in Hk as [[_ <-]|[_ Hk]]; [by eexists|].
    by rewrite lookup_empty in Hk.
Qed.



(** No partial document: when an attribute of the declared list cannot be
    projected, [default] raises, and so does the encoding of the
    instance. *)
Theorem default_fails_with_accessor (o : oid) (ob : views.object)
    (names : list string) (name : string) (e : exn) :
  store !! o = Some ob →
  views.obj_json_attributes ob = Some names →
  name ∈ names →
  views.projected reverse store o name = Exc e →
  ∃ e', views.default reverse store (VRef o) = Exc e'
        ∧ ∀ n, encode (views.default reverse store) (S n) [] (VRef o) = Exc e'.
Proof.
  intros Ho Hnames Hin He.
  assert (∃ e', views.default reverse store (VRef o) = Exc e') as [e' He'].
  { cbn [views.default]. rewrite Ho, Hnames.
    destruct (foldl _ _ names) as [d|e'] eqn:Hf; [|by eexists].
    apply default_loop in Hf as [Hall _]. rewrite Forall_forall in Hall.
    destruct (Hall name Hin) as [v Hv]. congruence. }
  exists e'. split; [done|]. intros n.
  change (encode (views.default reverse store) (S n) [] (VRef o))
    with (if decide (o ∈ @nil oid)
          then Exc (Builtin ValueError "Circular reference detected")
          else views.default reverse store (VRef o)
               ≫= encode (views.default reverse store) n [o]).
  rewrite decide_False by apply not_elem_of_nil. by rewrite He'.
Qed.

End response_facts.



(** A host whose [jobs] accessor is left unimplemented. *)
Lemma default_fails_with_accessor_witness :
  let broken :=
    views.Object views.Other "HostBase"
      (list_to_map
         [ ("name", views.Attr (Val (VStr "n2")));
           ("jobs", views.Meth
                      (Exc (Builtin NotImplementedError "jobs"))) ])
      (Some ["name"; "jobs"]) in
  let store : gmap oid views.object := {[ 7%nat := broken ]} in
  store !! 7%nat = Some broken
  ∧ views.obj_json_attributes broken = Some ["name"; "jobs"]
  ∧ "jobs" ∈ ["name"; "jobs"]
  ∧ views.projected fixtures.reverse store 7%nat "jobs"
    = Exc (Builtin NotImplementedError "jobs")
  ∧ ∃ e', views.default fixtures.reverse store (VRef 7%nat) = Exc e'
          ∧ ∀ n, encode (views.default fixtures.reverse store) (S n) []
                   (VRef 7%nat) = Exc e'.
Proof.
  intros broken store.
  assert ("jobs" ∈ ["name"; "jobs"]) as Hin.
  { apply elem_of_cons. right. apply elem_of_cons. by left. }
  split; [reflexivity|]. split; [reflexivity|]. split; [exact Hin|].
  split; [reflexivity|].
  apply (default_fails_with_accessor fixtures.reverse store 7%nat broken
           ["name"; "jobs"] "jobs" (Builtin NotImplementedError "jobs"));
    [reflexivity|reflexivity|exact Hin|reflexivity].
Defined.

(** ** ClusterException: what the constructor keeps *)



(** ** The submission forms *)

Lemma get_args_step_lookup (acc : gmap string value) (k0 k : string)
    (v0 v : value) :
  acc !! k0 = None →
  views.get_args_step acc (k0, v0) !! k = Some v ↔
  acc !! k = Some v
  ∨ (k = k0 ∧ v = v0
     ∧ k ≠ "options" ∧ k ≠ "options2" ∧ views.truthy v = true).
Proof.
  intros Hfresh. unfold views.get_args_step. cbn [fst snd].
  case_bool_decide as Hopt; [|destruct (views.truthy v0) eqn:Htr].
  - split; [auto|]. intros [?|(-> & -> & Hn1 & Hn2 & _)]; [done|].
    exfalso. set_solver.
  - rewrite lookup_insert_Some. split.
    + intros [[<- <-]|[Hne H]]; [|by left].
      right. split_and!; try done; intros ->; apply Hopt; set_solver.
    + intros [H|(-> & -> & _)]; [|by left].
      right. split; [|done]. intros <-. congruence.
  - split; [auto|]. intros [?|(-> & -> & _ & _ & Ht)]; [done|congruence].
Qed.

Lemma get_args_loop (l : list (string * value)) (k : string) (v : value) :
  NoDup l.*1 →
  ∀ acc, (∀ k', is_Some (acc !! k') → k' ∉ l.*1) →
    foldl views.get_args_step acc l !! k = Some v ↔
    acc !! k = Some v
    ∨ ((k, v) ∈ l ∧ k ≠ "options" ∧ k ≠ "options2" ∧ views.truthy v = true).
Proof.
  induction l as [|[k0 v0] l IH]; intros Hnd acc Hacc.
  - cbn. split; [auto|]. intros [?|[[]%elem_of_nil _]]. done.
  - cbn in Hnd. apply NoDup_cons in Hnd as [Hk0 Hnd].
    assert (acc !! k0 = None) as Hfresh.
    { destruct (acc !! k0) eqn:Hk; [|done].
      exfalso. apply (Hacc k0); [by rewrite Hk|]. cbn. by left. }
    cbn [foldl]. rewrite IH; [|done|].
    + rewrite get_args_step_lookup by done. rewrite elem_of_cons.
      naive_solver.
    + intros k' [v' Hv']. apply get_args_step_lookup in Hv'; [|done].
      destruct Hv' as [Hv'|(-> & _)]; [|done].
      assert (k' ∉ ((k0, v0) :: l).*1) as Hnin by (apply Hacc; eauto).
      cbn in Hnin. set_solver.
Qed.

(** The arguments that [SimpleJobSubmitForm] hands to [Job.submit] are the
    cleaned fields of the form that are set: a field is passed, with its
    value, exactly when the value is true as Python sees it and the field is
    neither [options] nor [options2]. *)
Theorem SimpleJobSubmitForm_get_args_lookup (cleaned_data : gmap string value)
    (k : string) (v : value) :
  views.SimpleJobSubmitForm_get_args cleaned_data !! k = Some v ↔
  cleaned_data !! k = Some v
  ∧ k ≠ "options" ∧ k ≠ "options2" ∧ views.truthy v = true.
Proof.
  unfold views.SimpleJobSubmitForm_get_args.
  rewrite get_args_loop.
  - rewrite lookup_empty, elem_of_map_to_list. naive_solver.
  - apply NoDup_fst_map_to_list.
  - intros k'. rewrite lookup_empty. by intros [].
Qed.

Example SimpleJobSubmitForm_get_args_example :
  views.SimpleJobSubmitForm_get_args
    (<["command" := VStr "sleep 60"]>
       (<["requested_slots" := VInt 2]>
          (<["queue_name" := VStr ""]>
             {[ "options" := VList [VStr "1"] ]})))
  = <["command" := VStr "sleep 60"]> {[ "requested_slots" := VInt 2 ]}.
Proof. vm_compute. reflexivity. Qed.

(** ** More of the protocol, on the fixtures *)

Lemma view_starts_one_worker_witness :
  views.work_of fixtures.OLWSubmit_subclasses
    (views.op_job_submit "SimpleJobSubmitForm") (fixtures.ajax "alice")
  = Some (views.submit_job (VDict {[ "command" := VStr "sleep 60" ]})
            (views.Form true (Val {[ "command" := VStr "sleep 60" ]})))
  ∧ ∃ rest,
      views.trace
        (views.run
           (views.view fixtures.reverse fixtures.store 10 fixtures.passwd
              fixtures.setuid_permitted fixtures.scheduler
              fixtures.OLWSubmit_subclasses None
              (views.op_job_submit "SimpleJobSubmitForm")
              (fixtures.ajax "alice")) 0).2
      = views.Start
          :: views.observed None
               (views.worker fixtures.reverse fixtures.store 10
                  fixtures.passwd fixtures.setuid_permitted fixtures.scheduler
                  (views.submit_job (VDict {[ "command" := VStr "sleep 60" ]})
                     (views.Form true
                        (Val {[ "command" := VStr "sleep 60" ]})))
                  (fixtures.ajax "alice")) 0
          ++ rest
      ∧ Forall (λ e, e = views.Join ∨ e = views.Get) rest.
Proof.
  split; [reflexivity|].
  apply (view_starts_one_worker fixtures.reverse fixtures.store 10
           fixtures.passwd fixtures.setuid_permitted fixtures.scheduler
           fixtures.OLWSubmit_subclasses None
           (views.op_job_submit "SimpleJobSubmitForm") (fixtures.ajax "alice")).
  reflexivity.
Defined.

Lemma view_without_work_witness :
  views.work_of fixtures.OLWSubmit_subclasses
    (views.op_host_close "n1") (fixtures.browser "alice") = None
  ∧ views.trace
      (views.run
         (views.view fixtures.reverse fixtures.store 10 fixtures.passwd
            fixtures.setuid_permitted fixtures.scheduler
            fixtures.OLWSubmit_subclasses None
            (views.op_host_close "n1") (fixtures.browser "alice")) 0).2
    = match confirm_call (views.op_host_close "n1") with
      | Some c => [views.Scheduler 0 c]
      | None => []
      end.
Proof.
  split; [reflexivity|].
  apply (view_without_work fixtures.reverse fixtures.store 10
           fixtures.passwd fixtures.setuid_permitted fixtures.scheduler
           fixtures.OLWSubmit_subclasses None
           (views.op_host_close "n1") (fixtures.browser "alice") 0).
  reflexivity.
Defined.

